(** * krew: the plugin installation engine (package [installation])

    A shallow embedding of [Install], [install], [applyDefaults],
    [downloadAndExtract], [Uninstall], [createOrUpdateLink], [removeLink],
    [isWindows] and [pluginNameToBin], together with the properties of the
    install / uninstall lifecycle.

    Go values are modelled as follows.
    - [error] is [option errval]; [None] is Go's [nil].
    - A call that returns [(v, err)] returns a pair here as well.
    - Every call that leaves the package (package [os], [filepath.Abs],
      the receipt store, the downloader, the file relocator, the platform
      matcher) is an operation of the host, see [OS] and [Collaborators].
      Running a function yields its result, the world it leaves behind and
      the sequence of calls it made, each with the error it returned.
    - [glog] output is not part of the model.
    - The permission [0755] of [os.MkdirAll] is written [493].

    The packages of the repository that the installer calls and that are
    not among the sources are parameters of the host; [MemHost] gives one
    host, a POSIX file system in memory, on which the functions run. *)

From Stdlib Require Import ZArith Ascii.
From stdpp Require Import base strings list gmap.

Local Open Scope Z_scope.

(** ** Errors: Go's [error], package [os] and [github.com/pkg/errors] *)

Inductive Errno : Type :=
  ENOENT | EEXIST | EPERM | ENOTDIR | ENOTEMPTY | EIO.

Inductive errval : Type :=
| PathError (op path : string) (errno : Errno)
| LinkError (op old new : string) (errno : Errno)
| Fundamental (format : string) (args : list string)
| WithMessage (cause : errval) (format : string) (args : list string).

Definition error : Type := option errval.

(** [errors.New(msg)] and [errors.Errorf(format, args...)]. *)
Definition errors_New (msg : string) : error := Some (Fundamental msg []).

Definition errors_Errorf (format : string) (args : list string) : error :=
  Some (Fundamental format args).

(** [errors.Wrap(err, msg)] and [errors.Wrapf(err, format, args...)]:
    "If err is nil, Wrap returns nil." *)
Definition errors_Wrapf (err : error) (format : string) (args : list string) : error :=
  match err with
  | None => None
  | Some e => Some (WithMessage e format args)
  end.

Definition errors_Wrap (err : error) (msg : string) : error :=
  errors_Wrapf err msg [].

(** [os.IsNotExist(err)] looks through [*PathError] and [*LinkError] only;
    it is false for [nil] and for an error wrapped by [errors.Wrap]. *)
Definition os_IsNotExist (err : error) : bool :=
  match err with
  | Some (PathError _ _ ENOENT) => true
  | Some (LinkError _ _ _ ENOENT) => true
  | _ => false
  end.

(** [os.FileInfo], reduced to [Mode()], a 32-bit [os.FileMode]. *)
Record FileInfo : Type := { Mode : Z }.

Definition os_ModeDir : Z := Z.shiftl 1 31.
Definition os_ModeSymlink : Z := Z.shiftl 1 27.

(** ** Package [strings] *)

(** [strings.HasPrefix(s, prefix)]. *)
Fixpoint strings_HasPrefix (s prefix : string) : bool :=
  match prefix, s with
  | EmptyString, _ => true
  | String a prefix', String b s' => if Ascii.eqb a b then strings_HasPrefix s' prefix' else false
  | String _ _, EmptyString => false
  end.

(** The first byte of [s] lies between [lo] and [hi]. *)
Definition byte_within (lo hi : N) (s : string) : bool :=
  match s with
  | EmptyString => false
  | String c _ => ((lo <=? N_of_ascii c) && (N_of_ascii c <=? hi))%N
  end.

Definition string_tail (s : string) : string :=
  match s with
  | EmptyString => EmptyString
  | String _ s' => s'
  end.

(** The width of [utf8.DecodeRuneInString(s)]: the number of bytes of the
    UTF-8 sequence at the start of [s], 1 for a byte that does not start a
    well-formed sequence, 0 for the empty string. The first byte gives the
    size and the range of the second byte. *)
Definition utf8_width (s : string) : nat :=
  match s with
  | EmptyString => O
  | String c s1 =>
      let b := N_of_ascii c in
      let first : option (nat * N * N) :=
        (if b <? 194 then None
         else if b <=? 223 then Some (2%nat, 128, 191)
         else if b =? 224 then Some (3%nat, 160, 191)
         else if b =? 237 then Some (3%nat, 128, 159)
         else if b <=? 239 then Some (3%nat, 128, 191)
         else if b =? 240 then Some (4%nat, 144, 191)
         else if b <=? 243 then Some (4%nat, 128, 191)
         else if b =? 244 then Some (4%nat, 128, 143)
         else None)%N in
      match first with
      | None => 1%nat
      | Some (size, lo, hi) =>
          if negb (byte_within lo hi s1) then 1%nat
          else if Nat.eqb size 2 then 2%nat
          else if negb (byte_within 128 191 (string_tail s1)) then 1%nat
          else if Nat.eqb size 3 then 3%nat
          else if negb (byte_within 128 191 (string_tail (string_tail s1))) then 1%nat
          else 4%nat
      end
  end.

(** Replacement of an empty [old]: [new] is inserted at the beginning of
    the string and after every UTF-8 sequence, at most [n] times when
    [0 <= n]; [skip] counts the bytes of the current sequence that are still
    to be copied. *)
Fixpoint replace_empty (s new : string) (n : Z) (skip : nat) : string :=
  match skip with
  | S k =>
      match s with
      | EmptyString => EmptyString
      | String c s' => String c (replace_empty s' new n k)
      end
  | O =>
      if n =? 0 then s
      else new +:+ match s with
                   | EmptyString => EmptyString
                   | String c s' =>
                       String c (replace_empty s' new (n - 1) (Nat.pred (utf8_width s)))
                   end
  end.

(** Left-to-right replacement of the non-overlapping occurrences of a
    non-empty [old]; [skip] counts the characters of a matched occurrence
    that are still to be dropped. *)
Fixpoint replace_from (s old new : string) (n : Z) (skip : nat) : string :=
  match s with
  | EmptyString => EmptyString
  | String c s' =>
      match skip with
      | S k => replace_from s' old new n k
      | O =>
          if n =? 0 then s
          else if strings_HasPrefix s old
               then new +:+ replace_from s' old new (n - 1) (Nat.pred (String.length old))
               else String c (replace_from s' old new n O)
      end
  end.

(** [strings.Replace(s, old, new, n)]; a negative [n] puts no limit on the
    number of replacements. *)
Definition strings_Replace (s old new : string) (n : Z) : string :=
  match old with
  | EmptyString => replace_empty s new n O
  | String _ _ => replace_from s old new n O
  end.

(** The renaming in the words of the specification: every [-] of the name
    becomes [_]. It is compared with [strings_Replace] in
    [strings_Replace_dash]. *)
Fixpoint dash_to_underscore (s : string) : string :=
  match s with
  | EmptyString => EmptyString
  | String c s' => String (if Ascii.eqb c "-"%char then "_"%char else c) (dash_to_underscore s')
  end.

(** ** Package [index]: the manifest types used by the installer *)

Record FileOperation : Type := { From : string; To : string }.

(** A platform entry. [Files] is a Go slice: [None] is the [nil] slice (the
    manifest has no [files] key), [Some []] an empty slice that is not
    [nil]. The selector is kept as the text of the match expression. *)
Record Platform : Type := {
  URI : string;
  Sha256 : string;
  Selector : string;
  Files : option (list FileOperation);
  Bin : string
}.

Record PluginSpec : Type := {
  Version : string;
  ShortDescription : string;
  Homepage : string;
  Platforms : list Platform
}.

Record Plugin : Type := { Name : string; Spec : PluginSpec }.

(** The zero values [index.Platform{}] and [index.Plugin{}]. *)
Definition zeroPlatform : Platform :=
  {| URI := ""; Sha256 := ""; Selector := ""; Files := None; Bin := "" |}.

Definition zeroPlugin : Plugin :=
  {| Name := "";
     Spec := {| Version := ""; ShortDescription := ""; Homepage := ""; Platforms := [] |} |}.

(** ** Package [environment]: the paths provider, an interface here *)

Record Paths : Type := {
  BasePath : string;
  BinPath : string;
  DownloadPath : string;
  PluginInstallPath : string -> string;
  PluginVersionInstallPath : string -> string -> string;
  PluginInstallReceiptPath : string -> string
}.

(** ** Package [download] *)

Inductive Fetcher : Type :=
| HTTPFetcher
| FileFetcher (f : string).

Record Downloader : Type := { verifier : string; fetcher : Fetcher }.

Definition download_NewFileFetcher (f : string) : Fetcher := FileFetcher f.
Definition download_NewSha256Verifier (sum : string) : string := sum.
Definition download_NewDownloader (v : string) (f : Fetcher) : Downloader :=
  {| verifier := v; fetcher := f |}.

(** ** Calls that leave the package *)

Inductive Call : Type :=
| CGetenv (key : string)
| CLstat (path : string)
| CStat (path : string)
| CAbs (path : string)
| CMkdirAll (path : string) (perm : Z)
| CRemoveAll (path : string)
| CRemove (path : string)
| CSymlink (oldname newname : string)
| CReceiptLoad (path : string)
| CReceiptStore (plugin : Plugin) (path : string)
| CGetMatchingPlatform (platforms : list Platform)
| CDownloaderGet (d : Downloader) (uri dst : string)
| CMoveToInstallDir (src dst : string) (files : option (list FileOperation)).

(** A call together with the error it returned. *)
Definition Event : Type := Call * error.

(** The calls that can change the file system. *)
Definition mutates (c : Call) : bool :=
  match c with
  | CMkdirAll _ _ | CRemoveAll _ | CRemove _ | CSymlink _ _
  | CReceiptStore _ _ | CDownloaderGet _ _ _ | CMoveToInstallDir _ _ _ => true
  | _ => false
  end.

Definition is_symlink_call (c : Call) : bool :=
  match c with CSymlink _ _ => true | _ => false end.

Definition is_receipt_store (c : Call) : bool :=
  match c with CReceiptStore _ _ => true | _ => false end.

(** The calls of the link manager. *)
Definition is_link_call (c : Call) : bool :=
  match c with
  | CGetenv _ | CLstat _ | CRemove _ | CStat _ | CSymlink _ _ => true
  | _ => false
  end.

(** The Go runtime and standard library as seen by the installer. Reads
    ([Getenv], [Lstat], [Stat], [Abs]) leave the world as it is; the other
    operations return the world they produce. *)
Class OS : Type := {
  World : Type;
  runtime_GOOS : string;
  sys_Getenv : string -> World -> string;
  sys_Lstat : string -> World -> FileInfo * error;
  sys_Stat : string -> World -> FileInfo * error;
  sys_Abs : string -> World -> string * error;
  sys_MkdirAll : string -> Z -> World -> error * World;
  sys_RemoveAll : string -> World -> error * World;
  sys_Remove : string -> World -> error * World;
  sys_Symlink : string -> string -> World -> error * World;
  filepath_Join : string -> string -> string;
  filepath_FromSlash : string -> string
}.

(** The packages of this repository that the installer calls and that are
    not among the sources: [receipt], [download], [pathutil], the file
    relocator [moveToInstallDir] and the selector test of the platform
    matcher. They are taken as parameters. *)
Class Collaborators `{OS} : Type := {
  receipt_load : string -> World -> Plugin * error;
  receipt_store : Plugin -> string -> World -> error * World;
  downloader_get : Downloader -> string -> string -> World -> error * World;
  move_to_install_dir : string -> string -> option (list FileOperation) -> World -> error * World;
  selector_matches : string -> World -> bool * error;
  pathutil_IsSubPath : string -> string -> string * bool
}.

(** ** Running code against the host *)

Record Run `{OS} (A : Type) : Type := {
  value : A;
  after : World;
  trace : list Event
}.
Arguments value {_ _} _.
Arguments after {_ _} _.
Arguments trace {_ _} _.

Definition M `{OS} (A : Type) : Type := World -> Run A.

Definition ret `{OS} {A : Type} (a : A) : M A :=
  fun w => {| value := a; after := w; trace := [] |}.

Definition bind `{OS} {A B : Type} (m : M A) (k : A -> M B) : M B :=
  fun w =>
    match m w with
    | {| value := a; after := w1; trace := t1 |} =>
        match k a w1 with
        | {| value := b; after := w2; trace := t2 |} =>
            {| value := b; after := w2; trace := t1 ++ t2 |}
        end
    end.

Notation "'let*' p := m 'in' k" := (bind m (fun p => k))
  (at level 10, p pattern, m at level 100, k at level 200, only parsing).

(** A read of the world, recorded with the error it reports. *)
Definition observe `{OS} {A : Type} (c : Call) (f : World -> A) (e : A -> error) : M A :=
  fun w => let r := f w in {| value := r; after := w; trace := [(c, e r)] |}.

(** A call that may change the world. *)
Definition perform `{OS} (c : Call) (f : World -> error * World) : M error :=
  fun w => let r := f w in {| value := r.1; after := r.2; trace := [(c, r.1)] |}.

(** Go's [defer]: [cleanup] runs after the result of [body] is fixed. *)
Definition defer `{OS} {A : Type} (cleanup : M unit) (body : M A) : M A :=
  let* r := body in let* _ := cleanup in ret r.

Section installation.
Context `{Collaborators}.

Definition os_Getenv (key : string) : M string :=
  observe (CGetenv key) (sys_Getenv key) (fun _ => None).

Definition os_Lstat (path : string) : M (FileInfo * error) :=
  observe (CLstat path) (sys_Lstat path) snd.

Definition os_Stat (path : string) : M (FileInfo * error) :=
  observe (CStat path) (sys_Stat path) snd.

Definition filepath_Abs (path : string) : M (string * error) :=
  observe (CAbs path) (sys_Abs path) snd.

Definition os_MkdirAll (path : string) (perm : Z) : M error :=
  perform (CMkdirAll path perm) (sys_MkdirAll path perm).

Definition os_RemoveAll (path : string) : M error :=
  perform (CRemoveAll path) (sys_RemoveAll path).

Definition os_Remove (path : string) : M error :=
  perform (CRemove path) (sys_Remove path).

Definition os_Symlink (oldname newname : string) : M error :=
  perform (CSymlink oldname newname) (sys_Symlink oldname newname).

Definition receipt_Load (path : string) : M (Plugin * error) :=
  observe (CReceiptLoad path) (receipt_load path) snd.

Definition receipt_Store (plugin : Plugin) (path : string) : M error :=
  perform (CReceiptStore plugin path) (receipt_store plugin path).

Definition Downloader_Get (d : Downloader) (uri dst : string) : M error :=
  perform (CDownloaderGet d uri dst) (downloader_get d uri dst).

Definition moveToInstallDir (src dst : string) (files : option (list FileOperation)) : M error :=
  perform (CMoveToInstallDir src dst files) (move_to_install_dir src dst files).

(** Modelled from the spec: the platform matcher [GetMatchingPlatform]
    (its file is not among the sources). "Output: the first entry whose
    selector matches, plus a boolean found-flag." The third result is the
    error that the call in [Install] receives; it is the error of the first
    selector that cannot be evaluated, if the scan reaches one. *)
Fixpoint matchPlatform (platforms : list Platform) (w : World) : Platform * bool * error :=
  match platforms with
  | [] => (zeroPlatform, false, None)
  | p :: rest =>
      match selector_matches (Selector p) w with
      | (_, Some e) => (zeroPlatform, false, Some e)
      | (true, None) => (p, true, None)
      | (false, None) => matchPlatform rest w
      end
  end.

Definition GetMatchingPlatform (platforms : list Platform) : M (Platform * bool * error) :=
  observe (CGetMatchingPlatform platforms) (matchPlatform platforms) snd.

(** *** The source file *)

Record InstallOpts : Type := { ArchiveFileOverride : string }.

Record installOperation : Type := {
  pluginName : string;
  platform : Platform;
  downloadStagingDir : string;
  installDir : string;
  binDir : string
}.

Definition krewPluginName : string := "krew".

Definition ErrIsAlreadyInstalled : error :=
  errors_New "can't install, the newest version is already installed".
Definition ErrIsNotInstalled : error :=
  errors_New "plugin is not installed".
Definition ErrIsAlreadyUpgraded : error :=
  errors_New "can't upgrade, the newest version is already installed".

Definition isWindows : M bool :=
  let goos := runtime_GOOS in
  let* env := os_Getenv "KREW_OS" in
  let goos := if String.eqb env "" then goos else env in
  ret (String.eqb goos "windows").

Definition pluginNameToBin (name : string) (isWindows : bool) : string :=
  let name := strings_Replace name "-" "_" (-1) in
  let name := "kubectl-" +:+ name in
  let name := if isWindows then name +:+ ".exe" else name in
  name.

(** The rendering of [fi.Mode()] in the message of the second error is
    left out of its argument list. *)
Definition removeLink (path : string) : M error :=
  let* (fi, err) := os_Lstat path in
  if os_IsNotExist err then ret None
  else match err with
  | Some _ => ret (errors_Wrapf err "failed to read the symlink in %q" [path])
  | None =>
      if Z.land (Mode fi) os_ModeSymlink =? 0
      then ret (errors_Errorf "file %q is not a symlink (mode=%s)" [path])
      else
        let* err := os_Remove path in
        match err with
        | Some _ => ret (errors_Wrapf err "failed to remove the symlink in %q" [path])
        | None => ret None
        end
  end.

Definition createOrUpdateLink (binDir binary plugin : string) : M error :=
  let* windows := isWindows in
  let dst := filepath_Join binDir (pluginNameToBin plugin windows) in
  let* err := removeLink dst in
  match err with
  | Some _ => ret (errors_Wrap err "failed to remove old symlink")
  | None =>
      let* (_, err) := os_Stat binary in
      if os_IsNotExist err
      then ret (errors_Wrapf err
                  "can't create symbolic link, source binary (%q) cannot be found in extracted archive"
                  [binary])
      else
        let* err := os_Symlink binary dst in
        match err with
        | Some _ => ret (errors_Wrapf err "failed to create a symlink form %q to %q" [binDir; dst])
        | None => ret None
        end
  end.

Definition downloadAndExtract (extractDir uri sha256sum overrideFile : string) : M error :=
  let fetcher := HTTPFetcher in
  let fetcher := if negb (String.eqb overrideFile "")
                 then download_NewFileFetcher overrideFile else fetcher in
  let verifier := download_NewSha256Verifier sha256sum in
  let* err := Downloader_Get (download_NewDownloader verifier fetcher) uri extractDir in
  ret (errors_Wrap err "failed to download and verify file").

Definition applyDefaults (platform : Platform) : Platform :=
  match Files platform with
  | None =>
      {| URI := URI platform; Sha256 := Sha256 platform; Selector := Selector platform;
         Files := Some [ {| From := "*"; To := "." |} ];
         Bin := Bin platform |}
  | Some _ => platform
  end.

Definition install (op : installOperation) (opts : InstallOpts) : M error :=
  let* err := os_MkdirAll (downloadStagingDir op) 493 in
  match err with
  | Some _ => ret (errors_Wrapf err "could not create download path %q" [downloadStagingDir op])
  | None =>
    defer (let* _ := os_RemoveAll (downloadStagingDir op) in ret tt)
      (let* err := downloadAndExtract (downloadStagingDir op) (URI (platform op))
                (Sha256 (platform op)) (ArchiveFileOverride opts) in
       match err with
       | Some _ => ret (errors_Wrap err "failed to download and extract")
       | None =>
         let platform' := applyDefaults (platform op) in
         let* err := moveToInstallDir (downloadStagingDir op) (installDir op) (Files platform') in
         match err with
         | Some _ => ret (errors_Wrap err "failed while moving files to the installation directory")
         | None =>
           let* (subPathAbs, err) := filepath_Abs (installDir op) in
           match err with
           | Some _ => ret (errors_Wrapf err "failed to get the absolute fullPath of %q" [installDir op])
           | None =>
             let fullPath := filepath_Join (installDir op) (filepath_FromSlash (Bin platform')) in
             let* (pathAbs, err) := filepath_Abs fullPath in
             match err with
             | Some _ => ret (errors_Wrapf err "failed to get the absolute fullPath of %q" [fullPath])
             | None =>
               if negb (pathutil_IsSubPath subPathAbs pathAbs).2
               then ret (errors_Wrapf err "the fullPath %q does not extend the sub-fullPath %q"
                           [fullPath; installDir op])
               else
                 let* err := createOrUpdateLink (binDir op) fullPath (pluginName op) in
                 ret (errors_Wrap err "failed to link installed plugin")
             end
           end
         end
       end)
  end.

Definition Install (p : Paths) (plugin : Plugin) (opts : InstallOpts) : M error :=
  let* (_, err) := receipt_Load (PluginInstallReceiptPath p (Name plugin)) in
  match err with
  | None => ret ErrIsAlreadyInstalled
  | Some _ =>
    if negb (os_IsNotExist err)
    then ret (errors_Wrap err "failed to look up plugin receipt")
    else
      let* (candidate, ok, err) := GetMatchingPlatform (Platforms (Spec plugin)) in
      match err with
      | Some _ => ret (errors_Wrap err "failed trying to find a matching platform in plugin spec")
      | None =>
        if negb ok
        then ret (errors_Wrapf err "plugin %q does not offer installation for this platform"
                    [Name plugin])
        else
          let* err := install
                        {| pluginName := Name plugin;
                            platform := candidate;
                            downloadStagingDir := filepath_Join (DownloadPath p) (Name plugin);
                            binDir := BinPath p;
                            installDir := PluginVersionInstallPath p (Name plugin)
                                            (Version (Spec plugin)) |} opts in
          match err with
          | Some _ => ret (errors_Wrap err "install failed")
          | None =>
            let* err := receipt_Store plugin (PluginInstallReceiptPath p (Name plugin)) in
            ret (errors_Wrap err "installation receipt could not be stored, uninstall may fail")
          end
      end
  end.

Definition Uninstall (p : Paths) (name : string) : M error :=
  if String.eqb name krewPluginName
  then
    let* _ := isWindows in
    ret (errors_New "self-uninstall not allowed")
  else
    let* (_, err) := receipt_Load (PluginInstallReceiptPath p name) in
    match err with
    | Some _ =>
        if os_IsNotExist err then ret ErrIsNotInstalled
        else ret (errors_Wrapf err "failed to look up install receipt for plugin %q" [name])
    | None =>
        let* windows := isWindows in
        let symlinkPath := filepath_Join (BinPath p) (pluginNameToBin name windows) in
        let* err := removeLink symlinkPath in
        match err with
        | Some _ => ret (errors_Wrap err "could not uninstall symlink of plugin")
        | None =>
            let pluginInstallPath := PluginInstallPath p name in
            let* err := os_RemoveAll pluginInstallPath in
            match err with
            | Some _ => ret (errors_Wrapf err "could not remove plugin directory %q" [pluginInstallPath])
            | None =>
                let pluginReceiptPath := PluginInstallReceiptPath p name in
                let* err := os_Remove pluginReceiptPath in
                ret (errors_Wrapf err "could not remove plugin receipt %q" [pluginReceiptPath])
            end
        end
    end.

(** *** Names for what the functions compute on their way *)

(** The path of the link, [dst] in [createOrUpdateLink] and [symlinkPath]
    in [Uninstall], as computed in the world [w]. *)
Definition linkPath (binDir plugin : string) (w : World) : string :=
  filepath_Join binDir (pluginNameToBin plugin (value (isWindows w))).

Definition stagingDir (op : installOperation) : string := downloadStagingDir op.

(** The downloader that [downloadAndExtract] builds for [install]. *)
Definition downloaderOf (op : installOperation) (opts : InstallOpts) : Downloader :=
  download_NewDownloader (download_NewSha256Verifier (Sha256 (platform op)))
    (if negb (String.eqb (ArchiveFileOverride opts) "")
     then download_NewFileFetcher (ArchiveFileOverride opts) else HTTPFetcher).

(** [fullPath] of [install]. *)
Definition fullPath (op : installOperation) : string :=
  filepath_Join (installDir op) (filepath_FromSlash (Bin (applyDefaults (platform op)))).

(** What the deferred removal of the staging directory makes of a run that
    ends in the world [wb] with the result [v] after the calls [pre]. *)
Definition cleaned (op : installOperation) (v : error) (wb : World) (pre : list Event)
  : Run error :=
  {| value := v;
     after := (sys_RemoveAll (stagingDir op) wb).2;
     trace := pre ++ [(CRemoveAll (stagingDir op), (sys_RemoveAll (stagingDir op) wb).1)] |}.

(** The successful calls of [install], in the order it makes them. *)
Definition ev_mkdir (op : installOperation) : Event := (CMkdirAll (stagingDir op) 493, None).
Definition ev_download (op : installOperation) (opts : InstallOpts) : Event :=
  (CDownloaderGet (downloaderOf op opts) (URI (platform op)) (stagingDir op), None).
Definition ev_move (op : installOperation) : Event :=
  (CMoveToInstallDir (stagingDir op) (installDir op) (Files (applyDefaults (platform op))),
   None).
Definition ev_abs_dir (op : installOperation) : Event := (CAbs (installDir op), None).
Definition ev_abs_bin (op : installOperation) : Event := (CAbs (fullPath op), None).

(** The first call of an [Install] that finds no receipt. *)
Definition ev_lookup (p : Paths) (plugin : Plugin) (e0 : errval) : list Event :=
  [(CReceiptLoad (PluginInstallReceiptPath p (Name plugin)), Some e0)].

(** The operation that [Install] hands to [install]. *)
Definition operationOf (p : Paths) (plugin : Plugin) (candidate : Platform) : installOperation :=
  {| pluginName := Name plugin;
     platform := candidate;
     downloadStagingDir := filepath_Join (DownloadPath p) (Name plugin);
     binDir := BinPath p;
     installDir := PluginVersionInstallPath p (Name plugin) (Version (Spec plugin)) |}.

End installation.

(** *** A host with another [os.RemoveAll]

    The host [H] on which [os.RemoveAll] answers as [rm] does, everything
    else as on [H]; the collaborators are those of [H]. It serves to say
    what does not depend on the outcome of a removal. *)
Definition with_RemoveAll `{OS} (rm : string -> World -> error * World) : OS := {|
  World := World;
  runtime_GOOS := runtime_GOOS;
  sys_Getenv := sys_Getenv;
  sys_Lstat := sys_Lstat;
  sys_Stat := sys_Stat;
  sys_Abs := sys_Abs;
  sys_MkdirAll := sys_MkdirAll;
  sys_RemoveAll := rm;
  sys_Remove := sys_Remove;
  sys_Symlink := sys_Symlink;
  filepath_Join := filepath_Join;
  filepath_FromSlash := filepath_FromSlash
|}.

Definition with_RemoveAll_collaborators {H : OS} {C : @Collaborators H}
    (rm : string -> World -> error * World) : @Collaborators (with_RemoveAll rm) :=
  @Build_Collaborators (with_RemoveAll rm) (@receipt_load H C) (@receipt_store H C)
    (@downloader_get H C) (@move_to_install_dir H C) (@selector_matches H C)
    (@pathutil_IsSubPath H C).

(** *** Failures that [install] lets pass

    The failed calls after which [install] can still return [nil]: the
    deferred removal of the staging directory, an [os.Lstat] that finds
    nothing at the link path, and an [os.Stat] of the binary that fails
    with an error other than not-exist. *)
Definition tolerated (staging : string) (ev : Event) : bool :=
  match ev.1 with
  | CRemoveAll path => String.eqb path staging
  | CLstat _ => os_IsNotExist ev.2
  | CStat _ => negb (os_IsNotExist ev.2)
  | _ => false
  end.

(** [c] occurs in [s]. *)
Fixpoint has_char (c : ascii) (s : string) : bool :=
  match s with
  | EmptyString => false
  | String a s' => Ascii.eqb a c || has_char c s'
  end.

(** * The site functions (package [main] of [site/functions/server])

    The pure functions of the plugin catalogue service: [filterYAMLs] and
    [findRepo]. The handlers and [fetchPlugins] talk to the network and run
    goroutines; they are not part of the model. *)

(** [strings.HasSuffix(s, suffix)]:
    [len(s) >= len(suffix) && s[len(s)-len(suffix):] == suffix]. *)
Definition strings_HasSuffix (s suffix : string) : bool :=
  (String.length suffix <=? String.length s)%nat
  && String.eqb (String.substring (String.length s - String.length suffix)
                   (String.length suffix) s) suffix.

(** [strings.Contains(s, substr)]. *)
Fixpoint strings_Contains (s substr : string) : bool :=
  strings_HasPrefix s substr
  || match s with
     | EmptyString => false
     | String _ s' => strings_Contains s' substr
     end.

(** [github.RepositoryContent], reduced to the fields that are read. Each
    is a [*string]; its getter returns the empty string for [nil]. *)
Record RepositoryContent : Type := {
  rc_Type : option string;
  rc_Name : option string;
  rc_DownloadURL : option string
}.

Definition GetType (c : RepositoryContent) : string := default "" (rc_Type c).
Definition GetName (c : RepositoryContent) : string := default "" (rc_Name c).
Definition GetDownloadURL (c : RepositoryContent) : string := default "" (rc_DownloadURL c).

(** [filterYAMLs]: a loop over [entries] that appends to [out]. An entry is
    a [*github.RepositoryContent]; [None] is the [nil] pointer. *)
Definition filterYAMLs (entries : list (option RepositoryContent))
  : list (option RepositoryContent) :=
  foldl (fun out v =>
           match v with
           | None => out
           | Some c =>
               if String.eqb (GetType c) "file" && strings_HasSuffix (GetName c) ".yaml"
               then out ++ [v] else out
           end)
        [] entries.

(** What [filterYAMLs] keeps, as a test on one entry. *)
Definition is_yaml_file (v : option RepositoryContent) : bool :=
  match v with
  | None => false
  | Some c => String.eqb (GetType c) "file" && strings_HasSuffix (GetName c) ".yaml"
  end.

(** ** Package [regexp], for the patterns of this package

    A pattern is a sequence of tokens: one character of a class, a greedy
    star or plus of a class, and the two ends of a capture group. Matching
    is by backtracking, which finds the leftmost-first match that
    [regexp] returns. A string is its sequence of bytes; the classes of
    [githubRepoPattern] list ASCII characters only, so every byte of a
    longer UTF-8 sequence matches where its character does. *)
Inductive class : Type :=
| AnyChar
| NotOf (cs : list ascii)
| Lit (c : ascii).

(** [.] matches every character but the newline; [[^...]] every character
    that is not listed, the newline included. *)
Definition class_matches (k : class) (a : ascii) : bool :=
  match k with
  | AnyChar => negb (Ascii.eqb a "010"%char)
  | NotOf cs => negb (existsb (Ascii.eqb a) cs)
  | Lit c => Ascii.eqb a c
  end.

Inductive token : Type :=
| One (k : class)
| Star (k : class)
| Plus (k : class)
| Open
| Close.

Definition push (inside : bool) (cap : string) (a : ascii) : string :=
  if inside then cap +:+ String a EmptyString else cap.

(** A greedy repetition of the class [k] followed by [next]: it takes a
    character when it can and gives it back when the rest fails; [enough]
    says that the repetition may stop here. *)
Fixpoint greedy (k : class) (inside : bool) (next : string -> string -> option string)
    (s cap : string) (enough : bool) : option string :=
  let stop := if enough then next s cap else None in
  match s with
  | EmptyString => stop
  | String a s' =>
      if class_matches k a
      then match greedy k inside next s' (push inside cap a) true with
           | Some r => Some r
           | None => stop
           end
      else stop
  end.

(** Matches [re] at the start of [s]; the result is the text of the
    capture group. *)
Fixpoint run_regex (re : list token) (s : string) (inside : bool) (cap : string)
  : option string :=
  match re with
  | [] => Some cap
  | Open :: re' => run_regex re' s true cap
  | Close :: re' => run_regex re' s false cap
  | One k :: re' =>
      match s with
      | EmptyString => None
      | String a s' =>
          if class_matches k a then run_regex re' s' inside (push inside cap a) else None
      end
  | Star k :: re' => greedy k inside (fun s' cap' => run_regex re' s' inside cap') s cap true
  | Plus k :: re' => greedy k inside (fun s' cap' => run_regex re' s' inside cap') s cap false
  end.

(** [re.FindStringSubmatch(s)], reduced to the first capture group: the
    match that starts leftmost; [None] is the [nil] result. *)
Fixpoint FindStringSubmatch (re : list token) (s : string) : option string :=
  match run_regex re s false "" with
  | Some r => Some r
  | None =>
      match s with
      | EmptyString => None
      | String _ s' => FindStringSubmatch re s'
      end
  end.

Definition literal (s : string) : list token :=
  map (fun c => One (Lit c)) (String.list_ascii_of_string s).

(** [regexp.MustCompile(`.*github\.com/([^/]+/[^/#]+)`)]. *)
Definition githubRepoPattern : list token :=
  Star AnyChar :: literal "github.com/"
    ++ [Open; Plus (NotOf ["/"%char]); One (Lit "/"%char);
        Plus (NotOf ["/"%char; "#"%char]); Close].

Definition knownHomePages : gmap string string :=
  list_to_map
    [("https://krew.sigs.k8s.io/", "kubernetes-sigs/krew");
     ("https://sigs.k8s.io/krew", "kubernetes-sigs/krew");
     ("https://kubernetes.github.io/ingress-nginx/kubectl-plugin/", "kubernetes/ingress-nginx");
     ("https://kudo.dev/", "kudobuilder/kudo");
     ("https://kubevirt.io", "kubevirt/kubectl-virt-plugin");
     ("https://popeyecli.io", "derailed/popeye");
     ("https://soluble-ai.github.io/kubetap/", "soluble-ai/kubetap")].

(** [findRepo]; a key that the map does not hold reads as the empty
    string. *)
Definition findRepo (homePage : string) : string :=
  match FindStringSubmatch githubRepoPattern homePage with
  | Some repo => repo
  | None => default "" (knownHomePages !! homePage)
  end.

(** Every character of [s] passes [f]. *)
Fixpoint string_forall (f : ascii -> bool) (s : string) : bool :=
  match s with
  | EmptyString => true
  | String a s' => f a && string_forall f s'
  end.

(** [P] holds of [s] and of every suffix of [s]. *)
Fixpoint all_suffixes (P : string -> Prop) (s : string) : Prop :=
  P s /\ match s with
         | EmptyString => True
         | String _ s' => all_suffixes P s'
         end.

(** ** A host in memory

    A POSIX host whose file system is a finite map from cleaned absolute
    paths to nodes. It serves to run the installer on concrete inputs. It
    is simpler than POSIX where the runs below do not go: a path through a
    regular file is reported as missing (ENOENT where POSIX has ENOTDIR;
    [strict_OS] has the answer of POSIX for [os.Stat]), [os.Symlink] does
    not ask for the directory of the link to be there, and the error of
    [os.MkdirAll] names the path asked for, not the entry in the way. *)

Module MemHost.

Inductive node : Type :=
| Dir
| File (receipt : option Plugin)
| Link (target : string).

(** What a source locator (a URI or a local file) delivers: the digest of
    its bytes and the files of the archive. *)
Record archive : Type := { digest : string; members : list string }.

(** [pinned] holds the paths that the host refuses to remove (EPERM), as
    for a directory that is in use or immutable. *)
Record world : Type := {
  fs : gmap string node;
  environ : gmap string string;
  cwd : string;
  sources : gmap string archive;
  pinned : gset string
}.

Definition with_fs (w : world) (m : gmap string node) : world :=
  {| fs := m; environ := environ w; cwd := cwd w; sources := sources w; pinned := pinned w |}.

(** *** Package [path/filepath] on POSIX *)

Fixpoint segments (s : string) : list string :=
  match s with
  | EmptyString => [EmptyString]
  | String c s' =>
      if Ascii.eqb c "/"%char then EmptyString :: segments s'
      else match segments s' with
           | seg :: rest => String c seg :: rest
           | [] => [String c EmptyString]
           end
  end.

Fixpoint join_slash (segs : list string) : string :=
  match segs with
  | [] => ""
  | [seg] => seg
  | seg :: rest => seg +:+ "/" +:+ join_slash rest
  end.

Definition filepath_IsAbs (path : string) : bool := strings_HasPrefix path "/".

(** The element stack of [Clean], innermost element first. *)
Fixpoint clean_segments (rooted : bool) (segs stack : list string) : list string :=
  match segs with
  | [] => rev stack
  | seg :: rest =>
      if String.eqb seg "" || String.eqb seg "." then clean_segments rooted rest stack
      else if String.eqb seg ".." then
        match stack with
        | top :: stack' =>
            if String.eqb top ".." then clean_segments rooted rest (seg :: stack)
            else clean_segments rooted rest stack'
        | [] =>
            if rooted then clean_segments rooted rest []
            else clean_segments rooted rest [seg]
        end
      else clean_segments rooted rest (seg :: stack)
  end.

Definition filepath_Clean (path : string) : string :=
  let rooted := filepath_IsAbs path in
  let out := join_slash (clean_segments rooted (segments path) []) in
  if rooted then "/" +:+ out
  else if String.eqb out "" then "." else out.

(** [filepath.Join] of two elements: empty elements are ignored and the
    result is cleaned; the join of empty elements is empty. *)
Definition posix_Join (a b : string) : string :=
  if String.eqb a "" then (if String.eqb b "" then "" else filepath_Clean b)
  else if String.eqb b "" then filepath_Clean a
  else filepath_Clean (a +:+ "/" +:+ b).

Definition posix_FromSlash (path : string) : string := path.

Definition posix_Abs (path : string) (w : world) : string * error :=
  if filepath_IsAbs path then (filepath_Clean path, None)
  else (posix_Join (cwd w) path, None).

(** [k] is [p] or lies below it. *)
Definition within (p k : string) : bool :=
  String.eqb k p || strings_HasPrefix k (p +:+ "/").

Definition below (p k : string) : bool := strings_HasPrefix k (p +:+ "/").

(** The path itself preceded by its ancestors, the root left out. *)
Fixpoint prefixes (base : string) (segs : list string) : list string :=
  match segs with
  | [] => []
  | seg :: rest => let here := base +:+ "/" +:+ seg in here :: prefixes here rest
  end.

Definition ancestors (path : string) : list string :=
  prefixes "" (clean_segments true (segments path) []).

(** *** Package [os] *)

Definition mode_of (n : node) : Z :=
  match n with
  | Dir => Z.lor os_ModeDir 493
  | File _ => 420
  | Link _ => Z.lor os_ModeSymlink 511
  end.

Definition mem_Getenv (key : string) (w : world) : string :=
  default "" (environ w !! key).

Definition mem_Lstat (path : string) (w : world) : FileInfo * error :=
  match fs w !! path with
  | Some n => ({| Mode := mode_of n |}, None)
  | None => ({| Mode := 0 |}, Some (PathError "lstat" path ENOENT))
  end.

Fixpoint resolve (fuel : nat) (path : string) (m : gmap string node) : option node :=
  match fuel with
  | O => None
  | S k =>
      match m !! path with
      | Some (Link target) => resolve k target m
      | other => other
      end
  end.

Definition mem_Stat (path : string) (w : world) : FileInfo * error :=
  match resolve 8 path (fs w) with
  | Some n => ({| Mode := mode_of n |}, None)
  | None => ({| Mode := 0 |}, Some (PathError "stat" path ENOENT))
  end.

Definition is_dir_or_free (m : gmap string node) (path : string) : bool :=
  match m !! path with
  | Some Dir | None => true
  | Some _ => false
  end.

Definition mem_MkdirAll (path : string) (perm : Z) (w : world) : error * world :=
  let dirs := ancestors path in
  if forallb (is_dir_or_free (fs w)) dirs
  then (None, with_fs w (foldr (fun d m => <[d := Dir]> m) (fs w) dirs))
  else (Some (PathError "mkdir" path ENOTDIR), w).

Definition mem_RemoveAll (path : string) (w : world) : error * world :=
  if bool_decide (path ∈ pinned w)
  then (Some (PathError "unlinkat" path EPERM), w)
  else (None, with_fs w (filter (fun kv => negb (within path kv.1) = true) (fs w))).

Definition has_children (m : gmap string node) (path : string) : bool :=
  existsb (fun kv => below path kv.1) (map_to_list m).

Definition mem_Remove (path : string) (w : world) : error * world :=
  match fs w !! path with
  | None => (Some (PathError "remove" path ENOENT), w)
  | Some n =>
      if bool_decide (path ∈ pinned w) then (Some (PathError "remove" path EPERM), w)
      else if has_children (fs w) path then (Some (PathError "remove" path ENOTEMPTY), w)
      else (None, with_fs w (delete path (fs w)))
  end.

Definition mem_Symlink (oldname newname : string) (w : world) : error * world :=
  match fs w !! newname with
  | Some _ => (Some (LinkError "symlink" oldname newname EEXIST), w)
  | None => (None, with_fs w (<[newname := Link oldname]> (fs w)))
  end.

#[export] Instance mem_OS : OS := {|
  World := world;
  runtime_GOOS := "linux";
  sys_Getenv := mem_Getenv;
  sys_Lstat := mem_Lstat;
  sys_Stat := mem_Stat;
  sys_Abs := posix_Abs;
  sys_MkdirAll := mem_MkdirAll;
  sys_RemoveAll := mem_RemoveAll;
  sys_Remove := mem_Remove;
  sys_Symlink := mem_Symlink;
  filepath_Join := posix_Join;
  filepath_FromSlash := posix_FromSlash
|}.

(** *** The collaborators *)

(** Modelled from the spec: the receipt store (package [receipt] is not
    among the sources). "[load(name)]: returns the persisted manifest for
    [name], or a distinguishable not-found condition. [store(plugin, path)]:
    serializes and writes the manifest." *)
Definition mem_receipt_load (path : string) (w : world) : Plugin * error :=
  match fs w !! path with
  | Some (File (Some plugin)) => (plugin, None)
  | Some _ => (zeroPlugin, errors_Errorf "failed to decode plugin manifest %q" [path])
  | None => (zeroPlugin, Some (PathError "open" path ENOENT))
  end.

Definition mem_receipt_store (plugin : Plugin) (path : string) (w : world) : error * world :=
  match fs w !! path with
  | Some Dir => (Some (PathError "open" path EIO), w)
  | _ => (None, with_fs w (<[path := File (Some plugin)]> (fs w)))
  end.

(** Modelled from the spec: the archive pipeline (package [download] is not
    among the sources). It "computes a checksum over the raw bytes before
    any extraction is attempted, fails with a checksum-mismatch error if it
    disagrees with the expected value (no partial extraction on mismatch),
    and otherwise extracts the archive's full contents into the
    destination"; a local-file override replaces the fetch only. *)
Definition mem_downloader_get (d : Downloader) (uri dst : string) (w : world) : error * world :=
  let locator := match fetcher d with HTTPFetcher => uri | FileFetcher f => f end in
  match sources w !! locator with
  | None => (errors_Errorf "failed to fetch %q" [locator], w)
  | Some a =>
      if negb (String.eqb (digest a) (verifier d))
      then (errors_Errorf "checksum of %q does not match" [locator], w)
      else (None, with_fs w (foldr (fun f m => <[posix_Join dst f := File None]> m)
                               (fs w) (members a)))
  end.

Definition last_segment (path : string) : string :=
  default "" (last (segments path)).

(** Modelled from the spec: one file operation of the relocator, a "glob
    pattern relative to the extracted staging root, destination relative to
    the install root". The entries named by [From] below [src] move below
    [dst]/[To]; the pattern is either [*] (every entry of [src]) or the
    name of one entry. *)
Definition move_one (src dst : string) (fo : FileOperation) (m : gmap string node)
  : gmap string node :=
  let target := posix_Join dst (To fo) in
  let root := if String.eqb (From fo) "*" then src else posix_Join src (From fo) in
  let keep := if String.eqb (From fo) "*" then "" else last_segment (From fo) in
  let moved (k : string) : bool :=
    if String.eqb (From fo) "*" then below root k else within root k in
  let rename (k : string) : string :=
    posix_Join target (keep +:+ String.substring (String.length root)
                                  (String.length k - String.length root) k) in
  foldr (fun kv acc =>
           if moved kv.1 then <[rename kv.1 := kv.2]> (delete kv.1 acc) else acc)
        m (map_to_list m).

(** Modelled from the spec: the file relocator (its file is not among the
    sources). "Operations are applied in list order; later operations may
    overwrite earlier ones' output. A pattern matching zero files is not
    itself an error." The install directory is created first. *)
Definition mem_move_to_install_dir (src dst : string) (files : option (list FileOperation))
    (w : world) : error * world :=
  match mem_MkdirAll dst 493 w with
  | (Some e, _) => (Some e, w)
  | (None, w1) =>
      (None, with_fs w1 (foldl (fun m fo => move_one src dst fo m) (fs w1) (default [] files)))
  end.

(** The operating system that the matcher compares with: [KREW_OS] when it
    is set, the one of the build otherwise. *)
Definition current_os (w : world) : string :=
  let env := mem_Getenv "KREW_OS" w in
  if String.eqb env "" then "linux" else env.

(** Modelled from the spec: the selector of a platform entry is an
    "OS/architecture match expression". Here the expression is the name of
    an operating system, and the empty expression matches every host. *)
Definition mem_selector_matches (sel : string) (w : world) : bool * error :=
  (String.eqb sel "" || String.eqb sel (current_os w), None).

Fixpoint strip_segments (base sub : list string) : option (list string) :=
  match base, sub with
  | [], rest => Some rest
  | b :: base', s :: sub' => if String.eqb b s then strip_segments base' sub' else None
  | _ :: _, [] => None
  end.

(** Modelled from the spec: [pathutil.IsSubPath] (not among the sources)
    "checks the binary path is equal to or nested under the install
    directory". The first result is the part of [subPath] below
    [basePath]. *)
Definition mem_IsSubPath (basePath subPath : string) : string * bool :=
  match strip_segments (clean_segments true (segments basePath) [])
                       (clean_segments true (segments subPath) []) with
  | Some rest => (if rest is [] then "." else join_slash rest, true)
  | None => ("", false)
  end.

#[export] Instance mem_Collaborators : Collaborators := {|
  receipt_load := mem_receipt_load;
  receipt_store := mem_receipt_store;
  downloader_get := mem_downloader_get;
  move_to_install_dir := mem_move_to_install_dir;
  selector_matches := mem_selector_matches;
  pathutil_IsSubPath := mem_IsSubPath
|}.

(** *** A sample installation *)

Definition paths : Paths := {|
  BasePath := "/krew";
  BinPath := "/krew/bin";
  DownloadPath := "/krew/download";
  PluginInstallPath := fun name => posix_Join "/krew/store" name;
  PluginVersionInstallPath := fun name version => posix_Join (posix_Join "/krew/store" name) version;
  PluginInstallReceiptPath := fun name => posix_Join "/krew/receipts" (name +:+ ".yaml")
|}.

Definition foo_archive : archive := {| digest := "d1ce"; members := ["foo"] |}.

Definition fresh : world := {|
  fs := {[ "/krew" := Dir; "/krew/bin" := Dir; "/krew/receipts" := Dir; "/krew/store" := Dir ]};
  environ := ∅;
  cwd := "/home/user";
  sources := {[ "file:///tmp/foo.tar.gz" := foo_archive ]};
  pinned := ∅
|}.

Definition foo_platform (files : option (list FileOperation)) (bin : string) : Platform := {|
  URI := "file:///tmp/foo.tar.gz"; Sha256 := "d1ce"; Selector := "";
  Files := files; Bin := bin
|}.

Definition foo_plugin (platforms : list Platform) : Plugin := {|
  Name := "foo";
  Spec := {| Version := "v1"; ShortDescription := ""; Homepage := ""; Platforms := platforms |}
|}.

Definition no_opts : InstallOpts := {| ArchiveFileOverride := "" |}.

(** The plugin [foo] of the scenario: one platform that matches the host,
    the archive of [foo_archive], the binary [foo]. *)
Definition foo : Plugin := foo_plugin [foo_platform None "foo"].

Definition foo_op (pl : Platform) : installOperation :=
  operationOf paths (foo_plugin [pl]) pl.

(** [fresh] with [KREW_OS] set to [windows]. *)
Definition windows_target : world := {|
  fs := fs fresh;
  environ := {[ "KREW_OS" := "windows" ]};
  cwd := cwd fresh;
  sources := sources fresh;
  pinned := pinned fresh
|}.

(** [windows_target] in which the binary of [foo] is already in the
    install directory, as an install that was interrupted leaves it. *)
Definition windows_leftover : world :=
  with_fs windows_target
    (<[ "/krew/store/foo/v1/foo" := File None ]>
       (<[ "/krew/store/foo/v1" := Dir ]> (<[ "/krew/store/foo" := Dir ]> (fs fresh)))).

(** [fresh] with a regular file where the link of [foo] belongs. *)
Definition foreign : world :=
  with_fs fresh (<[ "/krew/bin/kubectl-foo" := File None ]> (fs fresh)).

(** [fresh] on a host that refuses to remove the staging directory of
    [foo]. *)
Definition busy : world := {|
  fs := fs fresh;
  environ := environ fresh;
  cwd := cwd fresh;
  sources := sources fresh;
  pinned := {[ "/krew/download/foo" ]}
|}.

(** The world after [foo] is installed in [fresh]. *)
Definition installed : world := after (Install paths foo no_opts fresh).

(** A manifest that is there but cannot be read as one. *)
Definition unreadable : world :=
  with_fs fresh (<[ "/krew/receipts/foo.yaml" := Dir ]> (fs fresh)).

(** A plugin whose binary path leaves the install directory. *)
Definition escaping : Plugin := foo_plugin [foo_platform None "../../../etc/foo"].

(** A plugin that is offered for Windows only. *)
Definition windows_only : Plugin :=
  foo_plugin [ {| URI := "file:///tmp/foo.tar.gz"; Sha256 := "d1ce"; Selector := "windows";
                  Files := None; Bin := "foo.exe" |} ].

(** [installed] after the link of [foo] was deleted by hand. *)
Definition unlinked : world :=
  with_fs installed (delete "/krew/bin/kubectl-foo" (fs installed)).

(** [installed] with a regular file where the link of [foo] belongs. *)
Definition blocked : world :=
  with_fs installed (<[ "/krew/bin/kubectl-foo" := File None ]> (fs installed)).

(** A plugin whose version leads from its install directory to the place
    of its receipt. *)
Definition traversing : Plugin := {|
  Name := "foo";
  Spec := {| Version := "../../receipts/foo.yaml"; ShortDescription := ""; Homepage := "";
             Platforms := [foo_platform None "foo"] |}
|}.

(** An [os.RemoveAll] that refuses every removal. *)
Definition refused_RemoveAll (path : string) (w : world) : error * world :=
  (Some (PathError "unlinkat" path EPERM), w).

(** *** A host that tells a missing entry from a path through a file

    On POSIX [stat] fails with ENOTDIR, not ENOENT, when a component of the
    path is not a directory. [strict_OS] is [mem_OS] with this answer of
    [os.Stat]. *)

Definition through_file (path : string) (m : gmap string node) : bool :=
  existsb (fun d => if m !! d is Some (File _) then true else false)
    (removelast (ancestors path)).

Definition strict_Stat (path : string) (w : world) : FileInfo * error :=
  if through_file path (fs w) then ({| Mode := 0 |}, Some (PathError "stat" path ENOTDIR))
  else mem_Stat path w.

Definition strict_OS : OS := {|
  World := world;
  runtime_GOOS := "linux";
  sys_Getenv := mem_Getenv;
  sys_Lstat := mem_Lstat;
  sys_Stat := strict_Stat;
  sys_Abs := posix_Abs;
  sys_MkdirAll := mem_MkdirAll;
  sys_RemoveAll := mem_RemoveAll;
  sys_Remove := mem_Remove;
  sys_Symlink := mem_Symlink;
  filepath_Join := posix_Join;
  filepath_FromSlash := posix_FromSlash
|}.

Definition strict_Collaborators : @Collaborators strict_OS :=
  @Build_Collaborators strict_OS mem_receipt_load mem_receipt_store mem_downloader_get
    mem_move_to_install_dir mem_selector_matches mem_IsSubPath.

End MemHost.


(** * Properties *)

(** ** The name of the link *)

Lemma append_nil_r (s : string) : s +:+ "" = s.
Proof.
  induction s as [|c s IH]; [reflexivity|].
  change (String c s +:+ "") with (String c (s +:+ "")). now rewrite IH.
Qed.

Lemma append_assoc (s t u : string) : (s +:+ t) +:+ u = s +:+ (t +:+ u).
Proof.
  induction s as [|c s IH]; [reflexivity|].
  change (String c ((s +:+ t) +:+ u) = String c (s +:+ (t +:+ u))). now rewrite IH.
Qed.

Lemma replace_from_dash (s : string) (n : Z) :
  n < 0 -> replace_from s "-" "_" n O = dash_to_underscore s.
Proof.
  revert n. induction s as [|c s IH]; intros n Hn; [reflexivity|].
  cbn [replace_from dash_to_underscore].
  destruct (Z.eqb_spec n 0) as [->|_]; [lia|].
  cbn [strings_HasPrefix]. rewrite (Ascii.eqb_sym "-"%char c).
  destruct (Ascii.eqb c "-"%char).
  - assert (strings_HasPrefix s "" = true) as -> by now destruct s.
    change (String "_" (replace_from s "-" "_" (n - 1) O) = String "_" (dash_to_underscore s)).
    f_equal. apply IH. lia.
  - f_equal. now apply IH.
Qed.

Lemma strings_Replace_dash (s : string) :
  strings_Replace s "-" "_" (-1) = dash_to_underscore s.
Proof. unfold strings_Replace. now apply replace_from_dash. Qed.

Lemma pluginNameToBin_eq (name : string) (windows : bool) :
  pluginNameToBin name windows
  = "kubectl-" +:+ dash_to_underscore name +:+ (if windows then ".exe" else "").
Proof.
  unfold pluginNameToBin. rewrite strings_Replace_dash.
  destruct windows; [now rewrite append_assoc | now rewrite append_nil_r].
Qed.

#[local] Arguments os_IsNotExist : simpl never.
#[local] Arguments pluginNameToBin : simpl never.
#[local] Arguments isWindows : simpl never.
#[local] Arguments removeLink : simpl never.
#[local] Arguments createOrUpdateLink : simpl never.
#[local] Arguments install : simpl never.
#[local] Arguments matchPlatform : simpl never.
#[local] Arguments applyDefaults : simpl never.
#[local] Arguments defer : simpl never.

(** Unfolds the monad and the wrappers of the host's operations. *)
Ltac run :=
  unfold defer, bind, ret,
    os_Getenv, os_Lstat, os_Stat, filepath_Abs, os_MkdirAll, os_RemoveAll, os_Remove,
    os_Symlink, receipt_Load, receipt_Store, Downloader_Get, moveToInstallDir,
    GetMatchingPlatform, observe, perform;
  cbn; change (os_IsNotExist None) with false in *; cbn.

Lemma defer_run `{OS} {A : Type} (cleanup : M unit) (body : M A) (w : World) :
  defer cleanup body w
  = {| value := value (body w);
       after := after (cleanup (after (body w)));
       trace := trace (body w) ++ trace (cleanup (after (body w))) |}.
Proof.
  unfold defer, bind, ret. destruct (body w) as [v wb tb]. cbn.
  destruct (cleanup wb) as [[] wc tc]. cbn. now rewrite app_nil_r.
Qed.

Section link_manager.
Context `{Collaborators}.

Lemma isWindows_value (w : World) :
  value (isWindows w)
  = String.eqb (if String.eqb (sys_Getenv "KREW_OS" w) "" then runtime_GOOS
                else sys_Getenv "KREW_OS" w) "windows".
Proof. reflexivity. Qed.

Lemma isWindows_run (w : World) :
  isWindows w
  = {| value := value (isWindows w); after := w; trace := [(CGetenv "KREW_OS", None)] |}.
Proof. reflexivity. Qed.

(** *** [removeLink], by what [os.Lstat] answers *)

Lemma removeLink_absent (path : string) (w : World) (fi : FileInfo) (err : error) :
  sys_Lstat path w = (fi, err) ->
  os_IsNotExist err = true ->
  removeLink path w = {| value := None; after := w; trace := [(CLstat path, err)] |}.
Proof.
  intros Hl Hne. unfold removeLink. run. rewrite Hl. cbn.
  now rewrite Hne.
Qed.

Lemma removeLink_unreadable (path : string) (w : World) (fi : FileInfo) (e : errval) :
  sys_Lstat path w = (fi, Some e) ->
  os_IsNotExist (Some e) = false ->
  removeLink path w
  = {| value := errors_Wrapf (Some e) "failed to read the symlink in %q" [path];
       after := w; trace := [(CLstat path, Some e)] |}.
Proof.
  intros Hl Hne. unfold removeLink. run. rewrite Hl. cbn.
  now rewrite Hne.
Qed.

Lemma removeLink_foreign (path : string) (w : World) (fi : FileInfo) :
  sys_Lstat path w = (fi, None) ->
  Z.land (Mode fi) os_ModeSymlink = 0 ->
  removeLink path w
  = {| value := errors_Errorf "file %q is not a symlink (mode=%s)" [path];
       after := w; trace := [(CLstat path, None)] |}.
Proof.
  intros Hl Hm. unfold removeLink. run. rewrite Hl. run.
  now rewrite Hm.
Qed.

Lemma removeLink_symlink (path : string) (w : World) (fi : FileInfo) :
  sys_Lstat path w = (fi, None) ->
  Z.land (Mode fi) os_ModeSymlink <> 0 ->
  removeLink path w
  = {| value := errors_Wrapf (sys_Remove path w).1 "failed to remove the symlink in %q" [path];
       after := (sys_Remove path w).2;
       trace := [(CLstat path, None); (CRemove path, (sys_Remove path w).1)] |}.
Proof.
  intros Hl Hm. unfold removeLink. run. rewrite Hl. run.
  apply Z.eqb_neq in Hm. rewrite Hm. cbn.
  now destruct (sys_Remove path w) as [[e|] w'].
Qed.

(** *** [createOrUpdateLink], by the outcome of its three steps *)

Lemma createOrUpdateLink_unlink_fails (binDir binary plugin : string) (w : World) (e : errval) :
  value (removeLink (linkPath binDir plugin w) w) = Some e ->
  createOrUpdateLink binDir binary plugin w
  = {| value := errors_Wrap (Some e) "failed to remove old symlink";
       after := after (removeLink (linkPath binDir plugin w) w);
       trace := (CGetenv "KREW_OS", None) :: trace (removeLink (linkPath binDir plugin w) w) |}.
Proof.
  intros Hrl. unfold createOrUpdateLink, linkPath in *. run.
  rewrite (isWindows_run w) in *. cbn in *.
  destruct (removeLink _ w) as [v wr tr]. cbn in *. subst v. cbn.
  now rewrite app_nil_r.
Qed.

Lemma createOrUpdateLink_unlinked (binDir binary plugin : string) (w : World) :
  let dst := linkPath binDir plugin w in
  let rl := removeLink dst w in
  let st := (sys_Stat binary (after rl)).2 in
  let sl := sys_Symlink binary dst (after rl) in
  value rl = None ->
  createOrUpdateLink binDir binary plugin w
  = if os_IsNotExist st
    then {| value := errors_Wrapf st
               "can't create symbolic link, source binary (%q) cannot be found in extracted archive"
               [binary];
            after := after rl;
            trace := (CGetenv "KREW_OS", None) :: trace rl ++ [(CStat binary, st)] |}
    else {| value := errors_Wrapf sl.1 "failed to create a symlink form %q to %q" [binDir; dst];
            after := sl.2;
            trace := (CGetenv "KREW_OS", None)
                       :: trace rl ++ [(CStat binary, st); (CSymlink binary dst, sl.1)] |}.
Proof.
  intros dst rl st sl Hrl. subst dst rl st sl.
  unfold createOrUpdateLink, linkPath in *. run.
  rewrite (isWindows_run w) in *. cbn in *.
  destruct (removeLink _ w) as [v wr tr]. cbn in *. subst v. cbn.
  destruct (sys_Stat binary wr) as [fi st]. cbn.
  destruct (os_IsNotExist st); cbn; [reflexivity|].
  destruct (sys_Symlink binary _ wr) as [[e|] w']; cbn; now rewrite ?app_nil_r.
Qed.

End link_manager.

(** ** The exits of [install] *)

Section install_exits.
Context `{Collaborators}.
Variables (op : installOperation) (opts : InstallOpts).

Variable w : World.

Lemma install_mkdir_fails (e : errval) (w1 : World) :
  sys_MkdirAll (stagingDir op) 493 w = (Some e, w1) ->
  install op opts w
  = {| value := errors_Wrapf (Some e) "could not create download path %q" [(stagingDir op)];
       after := w1;
       trace := [(CMkdirAll (stagingDir op) 493, Some e)] |}.
Proof. intros Hmk. unfold install, stagingDir in *. run. now rewrite Hmk. Qed.

Section created.
Variable w1 : World.
Hypothesis Hmk : sys_MkdirAll (stagingDir op) 493 w = (None, w1).

(** Once the staging directory is made, the last call of [install] removes
    it, whatever happens in between. *)
Lemma install_deferred :
  exists (v : error) (wb : World) (pre : list Event),
    install op opts w = cleaned op v wb (ev_mkdir op :: pre).
Proof.
  unfold install, cleaned, ev_mkdir, stagingDir in *.
  unfold bind at 1. unfold os_MkdirAll, perform. cbn [value after trace].
  rewrite Hmk. cbn [fst snd]. rewrite defer_run.
  eexists _, _, _. reflexivity.
Qed.

Lemma install_download_fails (e : errval) (w2 : World) :
  downloader_get (downloaderOf op opts) (URI (platform op)) (stagingDir op) w1 = (Some e, w2) ->
  install op opts w
  = cleaned op (errors_Wrap (errors_Wrap (Some e) "failed to download and verify file")
               "failed to download and extract")
      w2 [ev_mkdir op; (CDownloaderGet (downloaderOf op opts) (URI (platform op)) (stagingDir op), Some e)].
Proof.
  intros Hdl.
  unfold install, downloadAndExtract, cleaned, ev_mkdir, downloaderOf, stagingDir in *.
  run. rewrite Hmk. cbn in *. rewrite Hdl. reflexivity.
Qed.

Section downloaded.
Variable w2 : World.
Hypothesis Hdl : downloader_get (downloaderOf op opts) (URI (platform op)) (stagingDir op) w1 = (None, w2).

Lemma install_move_fails (e : errval) (w3 : World) :
  move_to_install_dir (stagingDir op) (installDir op) (Files (applyDefaults (platform op))) w2
  = (Some e, w3) ->
  install op opts w
  = cleaned op (errors_Wrap (Some e) "failed while moving files to the installation directory")
      w3 [ev_mkdir op; ev_download op opts;
          (CMoveToInstallDir (stagingDir op) (installDir op) (Files (applyDefaults (platform op))),
           Some e)].
Proof.
  intros Hmv.
  unfold install, downloadAndExtract, cleaned, ev_mkdir, ev_download, downloaderOf,
    stagingDir in *.
  run. rewrite Hmk. cbn in *. rewrite Hdl. cbn. rewrite Hmv. reflexivity.
Qed.

Section moved.
Variable w3 : World.
Hypothesis Hmv :
  move_to_install_dir (stagingDir op) (installDir op) (Files (applyDefaults (platform op))) w2
  = (None, w3).

Lemma install_abs_dir_fails (a : string) (e : errval) :
  sys_Abs (installDir op) w3 = (a, Some e) ->
  install op opts w
  = cleaned op (errors_Wrapf (Some e) "failed to get the absolute fullPath of %q" [installDir op])
      w3 [ev_mkdir op; ev_download op opts; ev_move op; (CAbs (installDir op), Some e)].
Proof.
  intros Ha.
  unfold install, downloadAndExtract, cleaned, ev_mkdir, ev_download, ev_move, downloaderOf,
    stagingDir in *.
  run. rewrite Hmk. cbn in *. rewrite Hdl. cbn. rewrite Hmv. cbn. rewrite Ha. reflexivity.
Qed.

Section resolved.
Variable subPathAbs : string.
Hypothesis Ha : sys_Abs (installDir op) w3 = (subPathAbs, None).

Lemma install_abs_bin_fails (b : string) (e : errval) :
  sys_Abs (fullPath op) w3 = (b, Some e) ->
  install op opts w
  = cleaned op (errors_Wrapf (Some e) "failed to get the absolute fullPath of %q" [(fullPath op)])
      w3 [ev_mkdir op; ev_download op opts; ev_move op; ev_abs_dir op; (CAbs (fullPath op), Some e)].
Proof.
  intros Hb.
  unfold install, downloadAndExtract, cleaned, ev_mkdir, ev_download, ev_move, ev_abs_dir,
    downloaderOf, fullPath, stagingDir in *.
  run. rewrite Hmk. cbn in *. rewrite Hdl. cbn. rewrite Hmv. cbn. rewrite Ha. cbn.
  rewrite Hb. reflexivity.
Qed.

Variable pathAbs : string.
Hypothesis Hb : sys_Abs (fullPath op) w3 = (pathAbs, None).

(** The binary lies outside the install directory: [install] returns
    [nil], because the error it wraps is the [nil] of the second
    [filepath.Abs]. *)
Lemma install_outside :
  (pathutil_IsSubPath subPathAbs pathAbs).2 = false ->
  install op opts w
  = cleaned op None w3 [ev_mkdir op; ev_download op opts; ev_move op; ev_abs_dir op; ev_abs_bin op].
Proof.
  intros Hsub.
  unfold install, downloadAndExtract, cleaned, ev_mkdir, ev_download, ev_move, ev_abs_dir,
    ev_abs_bin, downloaderOf, fullPath, stagingDir in *.
  run. rewrite Hmk. cbn in *. rewrite Hdl. cbn. rewrite Hmv. cbn. rewrite Ha. cbn.
  rewrite Hb. cbn. rewrite Hsub. reflexivity.
Qed.

Lemma install_links :
  (pathutil_IsSubPath subPathAbs pathAbs).2 = true ->
  let c := createOrUpdateLink (binDir op) (fullPath op) (pluginName op) w3 in
  install op opts w
  = cleaned op (errors_Wrap (value c) "failed to link installed plugin") (after c)
      ([ev_mkdir op; ev_download op opts; ev_move op; ev_abs_dir op; ev_abs_bin op] ++ trace c).
Proof.
  intros Hsub c. subst c.
  unfold install, downloadAndExtract, cleaned, ev_mkdir, ev_download, ev_move, ev_abs_dir,
    ev_abs_bin, downloaderOf, fullPath, stagingDir in *.
  run. rewrite Hmk. cbn in *. rewrite Hdl. cbn. rewrite Hmv. cbn. rewrite Ha. cbn.
  rewrite Hb. cbn. rewrite Hsub. cbn.
  destruct (createOrUpdateLink _ _ _ w3) as [v wc tc]. cbn.
  now rewrite ?app_nil_r.
Qed.

End resolved.
End moved.
End downloaded.
End created.
End install_exits.

(** ** The exits of [Install] *)

Section Install_exits.
Context `{Collaborators}.
Variables (p : Paths) (plugin : Plugin) (opts : InstallOpts) (w : World).

Lemma Install_already (found : Plugin) :
  receipt_load (PluginInstallReceiptPath p (Name plugin)) w = (found, None) ->
  Install p plugin opts w
  = {| value := ErrIsAlreadyInstalled; after := w;
       trace := [(CReceiptLoad (PluginInstallReceiptPath p (Name plugin)), None)] |}.
Proof. intros Hld. unfold Install. run. now rewrite Hld. Qed.

Lemma Install_lookup_fails (found : Plugin) (e : errval) :
  receipt_load (PluginInstallReceiptPath p (Name plugin)) w = (found, Some e) ->
  os_IsNotExist (Some e) = false ->
  Install p plugin opts w
  = {| value := errors_Wrap (Some e) "failed to look up plugin receipt"; after := w;
       trace := [(CReceiptLoad (PluginInstallReceiptPath p (Name plugin)), Some e)] |}.
Proof. intros Hld Hne. unfold Install. run. rewrite Hld. cbn. now rewrite Hne. Qed.

Section not_installed.
Variables (found : Plugin) (e0 : errval).
Hypothesis Hld :
  receipt_load (PluginInstallReceiptPath p (Name plugin)) w = (found, Some e0).
Hypothesis Hne : os_IsNotExist (Some e0) = true.

Lemma Install_match_fails (c : Platform) (ok : bool) (e : errval) :
  matchPlatform (Platforms (Spec plugin)) w = (c, ok, Some e) ->
  Install p plugin opts w
  = {| value := errors_Wrap (Some e) "failed trying to find a matching platform in plugin spec";
       after := w;
       trace := ev_lookup p plugin e0 ++ [(CGetMatchingPlatform (Platforms (Spec plugin)), Some e)] |}.
Proof.
  intros Hm. unfold Install, ev_lookup. run. rewrite Hld. cbn. rewrite Hne. cbn.
  now rewrite Hm.
Qed.

(** No platform matches: [Install] returns [nil], because the error it
    wraps is the [nil] of [GetMatchingPlatform]. *)
Lemma Install_no_candidate (c : Platform) :
  matchPlatform (Platforms (Spec plugin)) w = (c, false, None) ->
  Install p plugin opts w
  = {| value := None; after := w;
       trace := ev_lookup p plugin e0 ++ [(CGetMatchingPlatform (Platforms (Spec plugin)), None)] |}.
Proof.
  intros Hm. unfold Install, ev_lookup. run. rewrite Hld. cbn. rewrite Hne. cbn.
  now rewrite Hm.
Qed.

Lemma Install_installs (c : Platform) :
  matchPlatform (Platforms (Spec plugin)) w = (c, true, None) ->
  let i := install (operationOf p plugin c) opts w in
  let rp := PluginInstallReceiptPath p (Name plugin) in
  let st := receipt_store plugin rp (after i) in
  let head := ev_lookup p plugin e0 ++ [(CGetMatchingPlatform (Platforms (Spec plugin)), None)] in
  Install p plugin opts w
  = match value i with
    | Some e => {| value := errors_Wrap (Some e) "install failed"; after := after i;
                   trace := head ++ trace i |}
    | None =>
        {| value := errors_Wrap st.1
                      "installation receipt could not be stored, uninstall may fail";
           after := st.2;
           trace := head ++ trace i ++ [(CReceiptStore plugin rp, st.1)] |}
    end.
Proof.
  intros Hm i rp st head. subst i rp st head.
  unfold Install, ev_lookup, operationOf. run. rewrite Hld. cbn. rewrite Hne. cbn.
  rewrite Hm. cbn.
  destruct (install _ opts w) as [[e|] wi ti]; cbn; now rewrite ?app_nil_r.
Qed.

End not_installed.
End Install_exits.

(** Splits a goal about [Install p plugin opts w] into its five exits. *)
Ltac Install_exits p plugin opts w :=
  let found := fresh "found" in let e := fresh "e" in let c := fresh "candidate" in
  let Hld := fresh "Hld" in let Hne := fresh "Hne" in let Hm := fresh "Hm" in
  let Hin := fresh "Hin" in
  destruct (receipt_load (PluginInstallReceiptPath p (Name plugin)) w) as [found [e|]] eqn:Hld;
  [ destruct (os_IsNotExist (Some e)) eqn:Hne;
    [ destruct (matchPlatform (Platforms (Spec plugin)) w) as [[c [|]] [?e|]] eqn:Hm;
      [ rewrite (Install_match_fails p plugin opts w found e Hld Hne c _ _ Hm) in *
      | pose proof (Install_installs p plugin opts w found e Hld Hne c Hm) as Hin;
        cbv zeta in Hin; rewrite Hin in *; clear Hin
      | rewrite (Install_match_fails p plugin opts w found e Hld Hne c _ _ Hm) in *
      | rewrite (Install_no_candidate p plugin opts w found e Hld Hne c Hm) in * ]
    | rewrite (Install_lookup_fails p plugin opts w found e Hld Hne) in * ]
  | rewrite (Install_already p plugin opts w found Hld) in * ].

(** Splits a goal about [install op opts w] into its seven exits and
    rewrites [install op opts w] to its value at each. *)
Ltac install_exits op opts w :=
  let e := fresh "e" in
  let w1 := fresh "w1" in let w2 := fresh "w2" in let w3 := fresh "w3" in
  let a := fresh "subPathAbs" in let b := fresh "pathAbs" in
  let Hmk := fresh "Hmk" in let Hdl := fresh "Hdl" in let Hmv := fresh "Hmv" in
  let Ha := fresh "Ha" in let Hb := fresh "Hb" in let Hsub := fresh "Hsub" in
  destruct (sys_MkdirAll (stagingDir op) 493 w) as [[e|] w1] eqn:Hmk;
  [ rewrite (install_mkdir_fails op opts w e w1 Hmk) in *
  | destruct (downloader_get (downloaderOf op opts) (URI (platform op)) (stagingDir op) w1)
      as [[e|] w2] eqn:Hdl;
    [ rewrite (install_download_fails op opts w w1 Hmk e w2 Hdl) in *
    | destruct (move_to_install_dir (stagingDir op) (installDir op)
                  (Files (applyDefaults (platform op))) w2) as [[e|] w3] eqn:Hmv;
      [ rewrite (install_move_fails op opts w w1 Hmk w2 Hdl e w3 Hmv) in *
      | destruct (sys_Abs (installDir op) w3) as [a [e|]] eqn:Ha;
        [ rewrite (install_abs_dir_fails op opts w w1 Hmk w2 Hdl w3 Hmv a e Ha) in *
        | destruct (sys_Abs (fullPath op) w3) as [b [e|]] eqn:Hb;
          [ rewrite (install_abs_bin_fails op opts w w1 Hmk w2 Hdl w3 Hmv a Ha b e Hb) in *
          | destruct (pathutil_IsSubPath a b).2 eqn:Hsub;
            [ pose proof (install_links op opts w w1 Hmk w2 Hdl w3 Hmv a Ha b Hb Hsub) as Hlk;
              cbv zeta in Hlk; rewrite Hlk in *; clear Hlk
            | rewrite (install_outside op opts w w1 Hmk w2 Hdl w3 Hmv a Ha b Hb Hsub) in * ]]]]]].

(** ** What does not depend on [os.RemoveAll] *)

Ltac crack :=
  repeat (cbn;
          match goal with
          | |- context [os_IsNotExist ?e] => destruct (os_IsNotExist e)
          | |- context [sys_Lstat ?a ?b] => destruct (sys_Lstat a b) as [? [?|]]
          | |- context [sys_Stat ?a ?b] => destruct (sys_Stat a b) as [? ?]
          | |- context [sys_Symlink ?a ?b ?c] => destruct (sys_Symlink a b c) as [[?|] ?]
          | |- context [sys_Remove ?a ?b] => destruct (sys_Remove a b) as [[?|] ?]
          | |- context [Z.eqb ?a ?b] => destruct (Z.eqb a b)
          end).

Ltac same_run :=
  unfold cleaned, stagingDir; cbn [value after trace];
  split; [reflexivity|]; split; reflexivity.

Ltac both_hosts :=
  unfold cleaned, stagingDir; cbn [value after trace];
  split; [reflexivity|]; split; [reflexivity|];
  intros rm; cbv zeta.

Section other_removal.
Context `{Collaborators}.

(** The link manager never calls [os.RemoveAll]. *)
Lemma createOrUpdateLink_with_RemoveAll (rm : string -> World -> error * World)
    (binDir binary plugin : string) (w : World) :
  let r' := @createOrUpdateLink (with_RemoveAll rm) binDir binary plugin w in
  let r := createOrUpdateLink binDir binary plugin w in
  value r' = value r /\ trace r' = trace r /\ after r' = after r.
Proof.
  cbv zeta. unfold createOrUpdateLink, removeLink, isWindows.
  unfold bind, ret, os_Getenv, os_Lstat, os_Stat, os_Remove, os_Symlink, observe, perform.
  crack; now repeat split.
Qed.

(** Once the staging directory is made, [install] calls [os.RemoveAll]
    once, as its last call, and what the call answers changes neither the
    calls before it nor the value that [install] returns. *)
Lemma install_with_RemoveAll (op : installOperation) (opts : InstallOpts) (w w1 : World) :
  sys_MkdirAll (downloadStagingDir op) 493 w = (None, w1) ->
  let r := install op opts w in
  exists (pre : list Event) (wb : World),
    trace r = pre ++ [(CRemoveAll (downloadStagingDir op),
                       (sys_RemoveAll (downloadStagingDir op) wb).1)]
    /\ after r = (sys_RemoveAll (downloadStagingDir op) wb).2
    /\ forall rm : string -> World -> error * World,
         let r' := @install (with_RemoveAll rm) (with_RemoveAll_collaborators rm) op opts w in
         value r' = value r
         /\ trace r' = pre ++ [(CRemoveAll (downloadStagingDir op),
                                (rm (downloadStagingDir op) wb).1)]
         /\ after r' = (rm (downloadStagingDir op) wb).2.
Proof.
  intros Hmk r. subst r.
  destruct (downloader_get (downloaderOf op opts) (URI (platform op)) (stagingDir op) w1)
    as [[e|] w2] eqn:Hdl.
  { eexists _, _. rewrite (install_download_fails op opts w w1 Hmk e w2 Hdl). both_hosts.
    rewrite (@install_download_fails (with_RemoveAll rm) (with_RemoveAll_collaborators rm)
               op opts w w1 Hmk e w2 Hdl).
    same_run. }
  destruct (move_to_install_dir (stagingDir op) (installDir op)
              (Files (applyDefaults (platform op))) w2) as [[e|] w3] eqn:Hmv.
  { eexists _, _. rewrite (install_move_fails op opts w w1 Hmk w2 Hdl e w3 Hmv). both_hosts.
    rewrite (@install_move_fails (with_RemoveAll rm) (with_RemoveAll_collaborators rm)
               op opts w w1 Hmk w2 Hdl e w3 Hmv).
    same_run. }
  destruct (sys_Abs (installDir op) w3) as [a [e|]] eqn:Ha.
  { eexists _, _. rewrite (install_abs_dir_fails op opts w w1 Hmk w2 Hdl w3 Hmv a e Ha).
    both_hosts.
    rewrite (@install_abs_dir_fails (with_RemoveAll rm) (with_RemoveAll_collaborators rm)
               op opts w w1 Hmk w2 Hdl w3 Hmv a e Ha).
    same_run. }
  destruct (sys_Abs (fullPath op) w3) as [b [e|]] eqn:Hb.
  { eexists _, _. rewrite (install_abs_bin_fails op opts w w1 Hmk w2 Hdl w3 Hmv a Ha b e Hb).
    both_hosts.
    rewrite (@install_abs_bin_fails (with_RemoveAll rm) (with_RemoveAll_collaborators rm)
               op opts w w1 Hmk w2 Hdl w3 Hmv a Ha b e Hb).
    same_run. }
  destruct (pathutil_IsSubPath a b).2 eqn:Hsub.
  - pose proof (install_links op opts w w1 Hmk w2 Hdl w3 Hmv a Ha b Hb Hsub) as Hlk.
    cbv zeta in Hlk. eexists _, _. rewrite Hlk. clear Hlk. both_hosts.
    pose proof (@install_links (with_RemoveAll rm) (with_RemoveAll_collaborators rm)
                  op opts w w1 Hmk w2 Hdl w3 Hmv a Ha b Hb Hsub) as Hlk.
    cbv zeta in Hlk. rewrite Hlk. clear Hlk.
    unfold cleaned, stagingDir; cbn [value after trace].
    destruct (createOrUpdateLink_with_RemoveAll rm (binDir op) (fullPath op) (pluginName op) w3)
      as (Hv & Ht & Hw).
    change (@fullPath (with_RemoveAll rm) op) with (fullPath op).
    rewrite Hv, Ht, Hw. split; [reflexivity|]; split; reflexivity.
  - eexists _, _. rewrite (install_outside op opts w w1 Hmk w2 Hdl w3 Hmv a Ha b Hb Hsub).
    both_hosts.
    rewrite (@install_outside (with_RemoveAll rm) (with_RemoveAll_collaborators rm)
               op opts w w1 Hmk w2 Hdl w3 Hmv a Ha b Hb Hsub).
    same_run.
Qed.

End other_removal.

(** ** The calls of the link manager and of the installer *)

Section calls.
Context `{Collaborators}.

(** The four answers of [os.Lstat] that [removeLink] tells apart. *)
Lemma removeLink_cases (path : string) (w : World) :
  let r := removeLink path w in
  (exists err, os_IsNotExist err = true
     /\ r = {| value := None; after := w; trace := [(CLstat path, err)] |})
  \/ (exists e, r = {| value := errors_Wrapf (Some e) "failed to read the symlink in %q" [path];
                      after := w; trace := [(CLstat path, Some e)] |})
  \/ r = {| value := errors_Errorf "file %q is not a symlink (mode=%s)" [path];
            after := w; trace := [(CLstat path, None)] |}
  \/ r = {| value := errors_Wrapf (sys_Remove path w).1 "failed to remove the symlink in %q" [path];
            after := (sys_Remove path w).2;
            trace := [(CLstat path, None); (CRemove path, (sys_Remove path w).1)] |}.
Proof.
  intros r. subst r.
  destruct (sys_Lstat path w) as [fi err] eqn:Hl.
  destruct (os_IsNotExist err) eqn:Hne.
  - left. exists err. split; [exact Hne|]. now apply (removeLink_absent _ _ fi).
  - destruct err as [e|].
    + right; left. exists e. now apply (removeLink_unreadable _ _ fi).
    + destruct (Z.eq_dec (Z.land (Mode fi) os_ModeSymlink) 0) as [Hm|Hm].
      * right; right; left. now apply (removeLink_foreign _ _ fi).
      * right; right; right. now apply (removeLink_symlink _ _ fi).
Qed.

Lemma removeLink_calls (path : string) (w : World) :
  Forall (fun ev : Event => ev.1 = CLstat path \/ ev.1 = CRemove path)
    (trace (removeLink path w)).
Proof.
  destruct (removeLink_cases path w) as [(err & _ & ->)|[(e & ->)|[->| ->]]]; cbn;
    repeat (apply Forall_cons_2; [cbn; auto|]); apply Forall_nil_2.
Qed.

Lemma removeLink_no_symlink (path : string) (w : World) :
  Forall (fun ev : Event => is_symlink_call ev.1 = false) (trace (removeLink path w)).
Proof.
  eapply Forall_impl; [apply removeLink_calls|].
  intros [c e] [Hc|Hc]; cbn in *; now subst c.
Qed.

(** A successful [createOrUpdateLink] ends with the one [os.Symlink] it
    makes, from the link path to the binary. *)
Lemma createOrUpdateLink_publishes (binDir binary plugin : string) (w : World) :
  value (createOrUpdateLink binDir binary plugin w) = None ->
  exists pre,
    trace (createOrUpdateLink binDir binary plugin w)
    = pre ++ [(CSymlink binary (linkPath binDir plugin w), None)]
    /\ Forall (fun ev : Event => is_symlink_call ev.1 = false) pre.
Proof.
  intros Hv.
  destruct (value (removeLink (linkPath binDir plugin w) w)) as [e|] eqn:Hrl.
  - rewrite (createOrUpdateLink_unlink_fails _ _ _ _ e Hrl) in Hv. discriminate.
  - pose proof (createOrUpdateLink_unlinked binDir binary plugin w Hrl) as Hc.
    cbv zeta in Hc. rewrite Hc in *. clear Hc.
    destruct (os_IsNotExist _) eqn:Hne.
    + cbn in Hv. destruct (sys_Stat binary _) as [fi [e|]]; cbn in *; discriminate.
    + cbn in Hv. destruct (sys_Symlink binary _ _) as [[e|] w'] eqn:Hs; [discriminate|].
      cbn. eexists (_ :: _ ++ [_]). split.
      * cbn. rewrite <- app_assoc. reflexivity.
      * constructor; [reflexivity|]. apply Forall_app. split.
        -- apply removeLink_no_symlink.
        -- now repeat constructor.
Qed.

Lemma createOrUpdateLink_calls (binDir binary plugin : string) (w : World) :
  Forall (fun ev : Event => is_link_call ev.1 = true)
    (trace (createOrUpdateLink binDir binary plugin w)).
Proof.
  assert (Hrm : Forall (fun ev : Event => is_link_call ev.1 = true)
                  (trace (removeLink (linkPath binDir plugin w) w))).
  { eapply Forall_impl; [apply removeLink_calls|].
    intros [c e] [Hc|Hc]; cbn in *; now subst c. }
  destruct (value (removeLink (linkPath binDir plugin w) w)) as [e'|] eqn:Hrl.
  - rewrite (createOrUpdateLink_unlink_fails _ _ _ _ e' Hrl). cbn.
    now apply Forall_cons_2.
  - pose proof (createOrUpdateLink_unlinked binDir binary plugin w Hrl) as Hc.
    cbv zeta in Hc. rewrite Hc. clear Hc.
    destruct (os_IsNotExist _); cbn; apply Forall_cons_2; try reflexivity;
      apply Forall_app; (split; [exact Hrm|]);
      repeat (apply Forall_cons_2; [reflexivity|]); apply Forall_nil_2.
Qed.

Lemma createOrUpdateLink_symlink_calls (binDir binary plugin : string) (w : World)
    (old new : string) (e : error) :
  In (CSymlink old new, e) (trace (createOrUpdateLink binDir binary plugin w)) ->
  old = binary /\ new = linkPath binDir plugin w.
Proof.
  assert (Hrm : ~ In (CSymlink old new, e) (trace (removeLink (linkPath binDir plugin w) w))).
  { intros Hin. pose proof (removeLink_no_symlink (linkPath binDir plugin w) w) as Hf.
    rewrite Forall_forall in Hf. apply list_elem_of_In in Hin. now apply Hf in Hin. }
  destruct (value (removeLink (linkPath binDir plugin w) w)) as [e'|] eqn:Hrl.
  - rewrite (createOrUpdateLink_unlink_fails _ _ _ _ e' Hrl). cbn.
    intros [Heq|Hin]; [discriminate | contradiction].
  - pose proof (createOrUpdateLink_unlinked binDir binary plugin w Hrl) as Hc.
    cbv zeta in Hc. rewrite Hc. clear Hc.
    destruct (os_IsNotExist _); cbn; rewrite in_app_iff; cbn.
    + intros [Heq|[Hin|[Heq|[]]]]; try discriminate; contradiction.
    + intros [Heq|[Hin|[Heq|[Heq|[]]]]]; try discriminate; try contradiction.
      now inversion Heq.
Qed.

(** Every [os.Symlink] of [install] is one of [createOrUpdateLink]. *)
Lemma install_symlink_calls (op : installOperation) (opts : InstallOpts) (w : World)
    (old new : string) (e : error) :
  In (CSymlink old new, e) (trace (install op opts w)) ->
  exists w3, In (CSymlink old new, e)
               (trace (createOrUpdateLink (binDir op) (fullPath op) (pluginName op) w3)).
Proof.
  install_exits op opts w; unfold cleaned, ev_mkdir, ev_download, ev_move, ev_abs_dir,
    ev_abs_bin; cbn; rewrite ?in_app_iff; cbn; intros Hin.
  7: { exfalso. intuition discriminate. }
  all: try (exfalso; intuition discriminate).
  exists w3.
  repeat (destruct Hin as [Hin|Hin]; try discriminate; try contradiction).
  exact Hin.
Qed.

Lemma Install_symlink_calls (p : Paths) (plugin : Plugin) (opts : InstallOpts) (w : World)
    (old new : string) (e : error) :
  In (CSymlink old new, e) (trace (Install p plugin opts w)) ->
  exists c w3, In (CSymlink old new, e)
                 (trace (createOrUpdateLink (BinPath p) (fullPath (operationOf p plugin c))
                           (Name plugin) w3)).
Proof.
  Install_exits p plugin opts w; unfold ev_lookup; cbn;
    try (intros Hin; exfalso; intuition discriminate).
  destruct (value (install _ opts w)) eqn:Hv; cbn; rewrite ?in_app_iff; cbn; intros Hin.
  - destruct Hin as [Hin|[Hin|Hin]]; try discriminate.
    exists candidate. now apply install_symlink_calls in Hin.
  - destruct Hin as [Hin|[Hin|[Hin|[Hin|[]]]]]; try discriminate.
    exists candidate. now apply install_symlink_calls in Hin.
Qed.

End calls.

(** ** The claims on the link name *)

(** C10. The map from plugin names to executable names is not injective:
    two different names that agree once every [-] is replaced by [_] get the
    same executable name, on either target, and hence the same link path
    [filepath.Join(binDir, pluginNameToBin(name, isWindows()))] in the shared
    bin directory. *)
Theorem pluginNameToBin_collision `{OS} (n1 n2 : string) (windows : bool) (binDir : string) :
  n1 <> n2 ->
  dash_to_underscore n1 = dash_to_underscore n2 ->
  pluginNameToBin n1 windows = pluginNameToBin n2 windows
  /\ filepath_Join binDir (pluginNameToBin n1 windows)
     = filepath_Join binDir (pluginNameToBin n2 windows).
Proof.
  intros _ Heq.
  assert (pluginNameToBin n1 windows = pluginNameToBin n2 windows) as Hbin
    by (rewrite !pluginNameToBin_eq; now rewrite Heq).
  split; [exact Hbin | now rewrite Hbin].
Qed.


(** C3, as amended. The executable name of a plugin is [kubectl-] followed
    by the plugin name with every [-] replaced by [_], followed by [.exe]
    on the Windows target; for [foo] that is [kubectl-foo], and
    [kubectl-foo.exe] on Windows. A successful [createOrUpdateLink] ends with
    the one [os.Symlink] that publishes the binary under that name in the bin
    directory, and every symlink that [Install] creates has that name. *)
Theorem published_link_name `{Collaborators} :
  (forall (name : string) (windows : bool),
     pluginNameToBin name windows
     = "kubectl-" +:+ dash_to_underscore name +:+ (if windows then ".exe" else ""))
  /\ pluginNameToBin "foo" false = "kubectl-foo"
  /\ pluginNameToBin "foo" true = "kubectl-foo.exe"
  /\ (forall (binDir binary plugin : string) (w : World),
        value (createOrUpdateLink binDir binary plugin w) = None ->
        exists pre,
          trace (createOrUpdateLink binDir binary plugin w)
          = pre ++ [(CSymlink binary
                       (filepath_Join binDir (pluginNameToBin plugin (value (isWindows w)))),
                     None)]
          /\ Forall (fun ev : Event => is_symlink_call ev.1 = false) pre)
  /\ (forall (p : Paths) (plugin : Plugin) (opts : InstallOpts) (w : World)
             (old new : string) (e : error),
        In (CSymlink old new, e) (trace (Install p plugin opts w)) ->
        exists w3 : World,
          new = filepath_Join (BinPath p)
                  (pluginNameToBin (Name plugin) (value (isWindows w3)))).
Proof.
  split; [exact pluginNameToBin_eq|].
  split; [reflexivity|]. split; [reflexivity|]. split.
  - intros binDir binary plugin w Hv. now apply createOrUpdateLink_publishes.
  - intros p plugin opts w old new e Hin.
    apply Install_symlink_calls in Hin. destruct Hin as (c & w3 & Hin).
    apply createOrUpdateLink_symlink_calls in Hin. exists w3. apply Hin.
Qed.

(** ** The file operations *)

Section relocation.
Context `{Collaborators}.

(** The relocator is called by [install] at most once, from the staging
    directory to the install directory, with the file operations that
    [applyDefaults] leaves in the platform. *)
Lemma install_move_calls (op : installOperation) (opts : InstallOpts) (w : World)
    (src dst : string) (files : option (list FileOperation)) (e : error) :
  In (CMoveToInstallDir src dst files, e) (trace (install op opts w)) ->
  src = downloadStagingDir op /\ dst = installDir op
  /\ files = Files (applyDefaults (platform op)).
Proof.
  install_exits op opts w; unfold cleaned, ev_mkdir, ev_download, ev_move, ev_abs_dir,
    ev_abs_bin, stagingDir; cbn; rewrite ?in_app_iff; cbn; intros Hin.
  6: { destruct Hin as [Hin|[Hin|[Hin|[Hin|[Hin|[Hin|Hin]]]]]]; try discriminate.
       - now inversion Hin.
       - pose proof (createOrUpdateLink_calls (binDir op) (fullPath op) (pluginName op) w3) as Hf.
         rewrite Forall_forall in Hf. apply list_elem_of_In, Hf in Hin. discriminate.
       - destruct Hin as [Hin|[]]. discriminate. }
  all: repeat (destruct Hin as [Hin|Hin]; try discriminate; try contradiction);
    now inversion Hin.
Qed.

End relocation.

(** C9, as amended. A platform entry whose [files] list is absent (the
    [nil] slice) gets the one file operation [{from: "*", to: "."}]; a list
    that is there, the empty list included, is left as it is, and so is the
    rest of the entry. The relocator is handed the resulting list. *)
Theorem applyDefaults_spec `{Collaborators} :
  (forall pl : Platform,
     Files pl = None ->
     applyDefaults pl
     = {| URI := URI pl; Sha256 := Sha256 pl; Selector := Selector pl;
          Files := Some [ {| From := "*"; To := "." |} ]; Bin := Bin pl |})
  /\ (forall (pl : Platform) (ops : list FileOperation),
        Files pl = Some ops -> applyDefaults pl = pl)
  /\ (forall (op : installOperation) (opts : InstallOpts) (w : World)
             (src dst : string) (files : option (list FileOperation)) (e : error),
        In (CMoveToInstallDir src dst files, e) (trace (install op opts w)) ->
        src = downloadStagingDir op /\ dst = installDir op
        /\ files = match Files (platform op) with
                   | None => Some [ {| From := "*"; To := "." |} ]
                   | Some ops => Some ops
                   end).
Proof.
  split; [|split].
  - intros pl Hf. unfold applyDefaults. now rewrite Hf.
  - intros pl ops Hf. unfold applyDefaults. now rewrite Hf.
  - intros op opts w src dst files e Hin.
    apply install_move_calls in Hin. destruct Hin as (-> & -> & ->).
    split; [reflexivity|]. split; [reflexivity|].
    unfold applyDefaults. now destruct (Files (platform op)) as [ops|] eqn:Hf.
Qed.

(** ** The staging directory *)

(** C4, as amended. Once [os.MkdirAll] has made the staging directory, the
    last call of [install] on every exit is the [os.RemoveAll] of that
    directory, and [install] returns the world this call leaves. The
    directory is gone on return whenever the call succeeds (on a host whose
    [os.RemoveAll] leaves nothing at a path it reports removed). A failure
    of the call is logged only: whatever [os.RemoveAll] answers, [install]
    makes the same calls before it and returns the same value, and the world
    on return is the one the call left. *)
Theorem install_removes_staging `{Collaborators}
    (op : installOperation) (opts : InstallOpts) (w w1 : World) :
  sys_MkdirAll (downloadStagingDir op) 493 w = (None, w1) ->
  (forall wb wc : World,
     sys_RemoveAll (downloadStagingDir op) wb = (None, wc) ->
     os_IsNotExist (sys_Lstat (downloadStagingDir op) wc).2 = true) ->
  let r := install op opts w in
  exists (pre : list Event) (wb : World),
    trace r = pre ++ [(CRemoveAll (downloadStagingDir op),
                       (sys_RemoveAll (downloadStagingDir op) wb).1)]
    /\ after r = (sys_RemoveAll (downloadStagingDir op) wb).2
    /\ ((sys_RemoveAll (downloadStagingDir op) wb).1 = None ->
        os_IsNotExist (sys_Lstat (downloadStagingDir op) (after r)).2 = true)
    /\ (forall rm : string -> World -> error * World,
          let r' := @install (with_RemoveAll rm) (with_RemoveAll_collaborators rm)
                      op opts w in
          value r' = value r
          /\ trace r' = pre ++ [(CRemoveAll (downloadStagingDir op),
                                 (rm (downloadStagingDir op) wb).1)]
          /\ after r' = (rm (downloadStagingDir op) wb).2).
Proof.
  intros Hmk Hgone r. subst r.
  pose proof (install_with_RemoveAll op opts w w1 Hmk) as Hr. cbv zeta in Hr.
  destruct Hr as (pre & wb & Ht & Ha & Hrm).
  exists pre, wb. split; [exact Ht|]. split; [exact Ha|]. split; [|exact Hrm].
  intros Hok. rewrite Ha. apply (Hgone wb).
  now destruct (sys_RemoveAll (downloadStagingDir op) wb) as [e wc]; cbn in *; subst e.
Qed.

(** ** The receipt at the start of [Install] *)

(** C6. When the receipt of the plugin loads, [Install] fails with
    [ErrIsAlreadyInstalled], leaves the world as it is and makes no other
    call. When loading fails with an error other than not-found, [Install]
    fails with that error wrapped, again after this one call. Only when the
    receipt is not found does [Install] go on, to the platform matcher. *)
Theorem Install_receipt_lookup `{Collaborators}
    (p : Paths) (plugin : Plugin) (opts : InstallOpts) (w : World) :
  let rp := PluginInstallReceiptPath p (Name plugin) in
  let r := Install p plugin opts w in
  (forall found : Plugin,
     receipt_load rp w = (found, None) ->
     value r = ErrIsAlreadyInstalled /\ value r <> None
     /\ after r = w /\ trace r = [(CReceiptLoad rp, None)]
     /\ Forall (fun ev : Event => mutates ev.1 = false) (trace r))
  /\ (forall (found : Plugin) (e : errval),
        receipt_load rp w = (found, Some e) ->
        os_IsNotExist (Some e) = false ->
        value r = errors_Wrap (Some e) "failed to look up plugin receipt"
        /\ value r <> None /\ after r = w /\ trace r = [(CReceiptLoad rp, Some e)]
        /\ Forall (fun ev : Event => mutates ev.1 = false) (trace r))
  /\ (forall (found : Plugin) (e : errval),
        receipt_load rp w = (found, Some e) ->
        os_IsNotExist (Some e) = true ->
        exists (ev : error) (rest : list Event),
          trace r = (CReceiptLoad rp, Some e)
                      :: (CGetMatchingPlatform (Platforms (Spec plugin)), ev) :: rest)
  /\ (forall (ev : Event) (rest : list Event),
        trace r = (CReceiptLoad rp, (receipt_load rp w).2) :: ev :: rest ->
        os_IsNotExist (receipt_load rp w).2 = true).
Proof.
  intros rp r. subst rp r. split; [|split; [|split]].
  - intros found' Hld'. rewrite (Install_already p plugin opts w found' Hld'). cbn.
    repeat split; try discriminate. now repeat constructor.
  - intros found' e' Hld' Hne'.
    rewrite (Install_lookup_fails p plugin opts w found' e' Hld' Hne'). cbn.
    repeat split; try discriminate. now repeat constructor.
  - intros found' e' Hld' Hne'.
    destruct (matchPlatform (Platforms (Spec plugin)) w) as [[c [|]] [e2|]] eqn:Hm.
    + rewrite (Install_match_fails p plugin opts w found' e' Hld' Hne' c _ _ Hm).
      eexists _, _. reflexivity.
    + pose proof (Install_installs p plugin opts w found' e' Hld' Hne' c Hm) as Hin.
      cbv zeta in Hin. rewrite Hin.
      destruct (value (install _ opts w)); cbn; eexists _, _; reflexivity.
    + rewrite (Install_match_fails p plugin opts w found' e' Hld' Hne' c _ _ Hm).
      eexists _, _. reflexivity.
    + rewrite (Install_no_candidate p plugin opts w found' e' Hld' Hne' c Hm).
      eexists _, _. reflexivity.
  - intros ev rest.
    Install_exits p plugin opts w; intros Heq; cbn in *; first [exact Hne | discriminate].
Qed.

(** ** Uninstall *)

Section uninstall.
Context `{Collaborators}.

(** The manager itself is never uninstalled: nothing is looked up or
    removed. *)
Lemma Uninstall_self (p : Paths) (w : World) :
  Uninstall p krewPluginName w
  = {| value := errors_New "self-uninstall not allowed"; after := w;
       trace := [(CGetenv "KREW_OS", None)] |}.
Proof. unfold Uninstall. cbn. run. now rewrite (isWindows_run w). Qed.

(** Without a receipt that loads, nothing is removed. *)
Lemma Uninstall_not_installed (p : Paths) (name : string) (w : World)
    (found : Plugin) (e : errval) :
  name <> krewPluginName ->
  receipt_load (PluginInstallReceiptPath p name) w = (found, Some e) ->
  Uninstall p name w
  = {| value := if os_IsNotExist (Some e) then ErrIsNotInstalled
                else errors_Wrapf (Some e)
                       "failed to look up install receipt for plugin %q" [name];
       after := w;
       trace := [(CReceiptLoad (PluginInstallReceiptPath p name), Some e)] |}.
Proof.
  intros Hname Hld. unfold Uninstall.
  apply String.eqb_neq in Hname. rewrite Hname. run. rewrite Hld. cbn.
  now destruct (os_IsNotExist (Some e)).
Qed.

End uninstall.

(** C8. [Uninstall] of a plugin whose receipt loads first removes the
    link, then the install directory of the plugin, then the receipt. When
    [removeLink] fails it returns an error and makes no further call; when
    [os.RemoveAll] fails it returns an error and makes no further call; the
    receipt is removed by the last call, which is made only after both have
    succeeded. [removeLink] touches the link path only, and succeeds only if
    nothing is there or the link was removed. For the reserved name [krew]
    [Uninstall] fails at once and removes nothing. *)
Theorem Uninstall_order `{Collaborators}
    (p : Paths) (name : string) (w : World) (found : Plugin) :
  receipt_load (PluginInstallReceiptPath p name) w = (found, None) ->
  let rp := PluginInstallReceiptPath p name in
  let dir := PluginInstallPath p name in
  let sym := filepath_Join (BinPath p) (pluginNameToBin name (value (isWindows w))) in
  let rl := removeLink sym w in
  let rm := sys_RemoveAll dir (after rl) in
  let rr := sys_Remove rp rm.2 in
  let head := [(CReceiptLoad rp, None); (CGetenv "KREW_OS", None)] ++ trace rl in
  let r := Uninstall p name w in
  (name = krewPluginName ->
   value r <> None /\ after r = w /\ trace r = [(CGetenv "KREW_OS", None)])
  /\ (name <> krewPluginName ->
      (value rl <> None ->
       value r <> None /\ after r = after rl /\ trace r = head)
      /\ (value rl = None -> rm.1 <> None ->
          value r <> None /\ after r = rm.2 /\ trace r = head ++ [(CRemoveAll dir, rm.1)])
      /\ (value rl = None -> rm.1 = None ->
          value r = errors_Wrapf rr.1 "could not remove plugin receipt %q" [rp]
          /\ after r = rr.2
          /\ trace r = head ++ [(CRemoveAll dir, None); (CRemove rp, rr.1)])
      /\ Forall (fun ev : Event => ev.1 = CLstat sym \/ ev.1 = CRemove sym) (trace rl)
      /\ (value rl = None ->
          os_IsNotExist (sys_Lstat sym w).2 = true \/ In (CRemove sym, None) (trace rl))).
Proof.
  intros Hld rp dir sym rl rm rr head r. split.
  { intros ->. subst r. rewrite Uninstall_self. cbn. repeat split; discriminate. }
  intros Hname.
  assert (Hrun : r = match value rl, rm.1 with
                     | Some e, _ =>
                         {| value := errors_Wrap (Some e) "could not uninstall symlink of plugin";
                            after := after rl; trace := head |}
                     | None, Some e =>
                         {| value := errors_Wrapf (Some e)
                                       "could not remove plugin directory %q" [dir];
                            after := rm.2; trace := head ++ [(CRemoveAll dir, rm.1)] |}
                     | None, None =>
                         {| value := errors_Wrapf rr.1 "could not remove plugin receipt %q" [rp];
                            after := rr.2;
                            trace := head ++ [(CRemoveAll dir, None); (CRemove rp, rr.1)] |}
                     end).
  { subst r head rr rm rp dir. unfold Uninstall.
    apply String.eqb_neq in Hname. rewrite Hname. run.
    rewrite Hld. cbn. rewrite (isWindows_run w). cbn.
    fold sym. fold rl. destruct rl as [[e|] wr tr]; cbn.
    + now rewrite app_nil_r.
    + destruct (sys_RemoveAll _ wr) as [[e|] wd]; cbn; [reflexivity|].
      now destruct (sys_Remove _ wd) as [[e|] wf]. }
  split; [|split; [|split; [|split]]].
  - intros Hv. rewrite Hrun. destruct (value rl); [|contradiction]. cbn.
    repeat split; discriminate.
  - intros Hv Hrm. rewrite Hrun, Hv. destruct rm.1; [|contradiction]. cbn.
    repeat split; discriminate.
  - intros Hv Hrm. rewrite Hrun, Hv, Hrm. cbn. now repeat split.
  - apply removeLink_calls.
  - intros Hv. subst rl.
    destruct (sys_Lstat sym w) as [fi err] eqn:Hl. cbn.
    destruct (os_IsNotExist err) eqn:Hne; [now left|]. right.
    destruct err as [e|].
    + rewrite (removeLink_unreadable _ _ fi e Hl Hne) in Hv. discriminate.
    + destruct (Z.eq_dec (Z.land (Mode fi) os_ModeSymlink) 0) as [Hm|Hm].
      * rewrite (removeLink_foreign _ _ fi Hl Hm) in Hv. discriminate.
      * rewrite (removeLink_symlink _ _ fi Hl Hm) in *. cbn in *.
        right. left. f_equal. now destruct (sys_Remove sym w) as [[e|] w'].
Qed.

(** ** Removing a link *)

(** C7. [removeLink] on a path where [os.Lstat] finds nothing returns
    [nil], changes nothing and makes no other call. Where it finds an entry
    that is not a symlink, [removeLink] fails, changes nothing and makes no
    other call: the entry is never removed. Where it finds a symlink,
    [removeLink] calls [os.Remove] on the path and succeeds exactly when that
    call does. Consequently [createOrUpdateLink] fails without changing
    anything when the link path holds an entry that is not a symlink, and so
    does an [install] that gets as far as the link: it fails, and after the
    [os.Lstat] that found the entry it only removes its staging directory. *)
Theorem removeLink_spec `{Collaborators} :
  (forall (path : string) (w : World) (fi : FileInfo) (err : error),
     sys_Lstat path w = (fi, err) ->
     let r := removeLink path w in
     (os_IsNotExist err = true ->
      value r = None /\ after r = w /\ trace r = [(CLstat path, err)])
     /\ (err = None -> Z.land (Mode fi) os_ModeSymlink = 0 ->
         value r <> None /\ after r = w /\ trace r = [(CLstat path, None)])
     /\ (err = None -> Z.land (Mode fi) os_ModeSymlink <> 0 ->
         trace r = [(CLstat path, None); (CRemove path, (sys_Remove path w).1)]
         /\ after r = (sys_Remove path w).2
         /\ (value r = None <-> (sys_Remove path w).1 = None)))
  /\ (forall (binDir binary plugin : string) (w : World) (fi : FileInfo),
        let dst := filepath_Join binDir (pluginNameToBin plugin (value (isWindows w))) in
        sys_Lstat dst w = (fi, None) ->
        Z.land (Mode fi) os_ModeSymlink = 0 ->
        let r := createOrUpdateLink binDir binary plugin w in
        value r <> None /\ after r = w
        /\ trace r = [(CGetenv "KREW_OS", None); (CLstat dst, None)])
  /\ (forall (op : installOperation) (opts : InstallOpts) (w w1 w2 w3 : World)
             (subPathAbs pathAbs : string) (fi : FileInfo),
        let staging := downloadStagingDir op in
        let dst := filepath_Join (binDir op)
                     (pluginNameToBin (pluginName op) (value (isWindows w3))) in
        sys_MkdirAll staging 493 w = (None, w1) ->
        downloader_get (downloaderOf op opts) (URI (platform op)) staging w1 = (None, w2) ->
        move_to_install_dir staging (installDir op) (Files (applyDefaults (platform op))) w2
        = (None, w3) ->
        sys_Abs (installDir op) w3 = (subPathAbs, None) ->
        sys_Abs (fullPath op) w3 = (pathAbs, None) ->
        (pathutil_IsSubPath subPathAbs pathAbs).2 = true ->
        sys_Lstat dst w3 = (fi, None) ->
        Z.land (Mode fi) os_ModeSymlink = 0 ->
        let r := install op opts w in
        value r <> None
        /\ after r = (sys_RemoveAll staging w3).2
        /\ trace r = [ev_mkdir op; ev_download op opts; ev_move op; ev_abs_dir op;
                      ev_abs_bin op; (CGetenv "KREW_OS", None); (CLstat dst, None);
                      (CRemoveAll staging, (sys_RemoveAll staging w3).1)]).
Proof.
  assert (Hlink : forall (binDir binary plugin : string) (w : World) (fi : FileInfo),
             sys_Lstat (linkPath binDir plugin w) w = (fi, None) ->
             Z.land (Mode fi) os_ModeSymlink = 0 ->
             createOrUpdateLink binDir binary plugin w
             = {| value := errors_Wrap
                             (errors_Errorf "file %q is not a symlink (mode=%s)"
                                [linkPath binDir plugin w])
                             "failed to remove old symlink";
                  after := w;
                  trace := [(CGetenv "KREW_OS", None);
                            (CLstat (linkPath binDir plugin w), None)] |}).
  { intros binDir binary plugin w fi Hl Hm.
    pose proof (removeLink_foreign _ _ fi Hl Hm) as Hrl.
    erewrite createOrUpdateLink_unlink_fails by (rewrite Hrl; reflexivity).
    now rewrite Hrl. }
  split; [|split].
  - intros path w fi err Hl r. subst r. split; [|split].
    + intros Hne. now rewrite (removeLink_absent _ _ fi err Hl Hne).
    + intros -> Hm. rewrite (removeLink_foreign _ _ fi Hl Hm). cbn.
      repeat split; discriminate.
    + intros -> Hm. rewrite (removeLink_symlink _ _ fi Hl Hm). cbn.
      split; [reflexivity|]. split; [reflexivity|].
      now destruct (sys_Remove path w) as [[e|] w'].
  - intros binDir binary plugin w fi dst Hl Hm r. subst r dst.
    rewrite (Hlink _ binary _ _ fi Hl Hm). cbn. repeat split; discriminate.
  - intros op opts w w1 w2 w3 a b fi staging dst Hmk Hdl Hmv Ha Hb Hsub Hl Hm r.
    subst r dst staging.
    pose proof (install_links op opts w w1 Hmk w2 Hdl w3 Hmv a Ha b Hb Hsub) as Hi.
    cbv zeta in Hi. rewrite Hi. clear Hi.
    rewrite (Hlink _ (fullPath op) _ _ fi Hl Hm). unfold cleaned, stagingDir. cbn.
    repeat split; discriminate.
Qed.

(** ** When [install] returns [nil] and when the receipt is stored *)

Section results.
Context `{Collaborators}.

(** [install] returns [nil] in two cases: the link was published, or the
    binary was found outside the install directory. *)
Lemma install_returns_nil (op : installOperation) (opts : InstallOpts) (w : World) :
  value (install op opts w) = None ->
  (exists w3, value (createOrUpdateLink (binDir op) (fullPath op) (pluginName op) w3) = None)
  \/ (exists (w3 : World) (subPathAbs pathAbs : string),
        sys_Abs (installDir op) w3 = (subPathAbs, None)
        /\ sys_Abs (fullPath op) w3 = (pathAbs, None)
        /\ (pathutil_IsSubPath subPathAbs pathAbs).2 = false).
Proof.
  install_exits op opts w; unfold cleaned; cbn; try discriminate; intros Hv.
  - left. exists w3.
    now destruct (value (createOrUpdateLink (binDir op) (fullPath op) (pluginName op) w3)).
  - right. now exists w3, subPathAbs, pathAbs.
Qed.

Lemma install_no_store (op : installOperation) (opts : InstallOpts) (w : World) :
  Forall (fun ev : Event => is_receipt_store ev.1 = false) (trace (install op opts w)).
Proof.
  install_exits op opts w; unfold cleaned, ev_mkdir, ev_download, ev_move, ev_abs_dir,
    ev_abs_bin; cbn;
    repeat (apply Forall_cons_2; [reflexivity|]); try apply Forall_nil_2.
  apply Forall_app. split; [|now repeat constructor].
  eapply Forall_impl; [apply createOrUpdateLink_calls|].
  intros [c e]. cbn. now destruct c.
Qed.

(** X17. [receipt.Store] is called only as the last call of [Install], with
    the plugin and its receipt path, and only after [install] has returned
    [nil]. *)
Lemma Install_store_is_last (p : Paths) (plugin : Plugin) (opts : InstallOpts) (w : World)
    (pre post : list Event) (stored : Plugin) (path : string) (e : error) :
  trace (Install p plugin opts w) = pre ++ (CReceiptStore stored path, e) :: post ->
  post = [] /\ stored = plugin /\ path = PluginInstallReceiptPath p (Name plugin)
  /\ exists c, value (install (operationOf p plugin c) opts w) = None.
Proof.
  assert (Hsplit : forall (l pre post : list Event) (x y : Event),
             Forall (fun ev : Event => is_receipt_store ev.1 = false) l ->
             is_receipt_store y.1 = true ->
             l ++ [x] = pre ++ y :: post -> post = [] /\ x = y).
  { intros l pre' post' x y Hl Hy Heq.
    revert pre' Heq. induction Hl as [|z l Hz Hl IH]; intros pre' Heq.
    - destruct pre' as [|z' pre']; cbn in Heq.
      + now injection Heq as -> ->.
      + injection Heq as _ Heq. now destruct pre'.
    - destruct pre' as [|z' pre']; cbn in Heq.
      + injection Heq as -> _. congruence.
      + injection Heq as _ Heq. now apply IH in Heq. }
  assert (Hnone : forall (l pre post : list Event) (y : Event),
             Forall (fun ev : Event => is_receipt_store ev.1 = false) l ->
             is_receipt_store y.1 = true ->
             l = pre ++ y :: post -> False).
  { intros l pre' post' y Hl Hy ->. rewrite Forall_app, Forall_cons in Hl.
    destruct Hl as (_ & Hl & _). congruence. }
  Install_exits p plugin opts w; unfold ev_lookup; cbn; intros Heq;
    try (exfalso; eapply (Hnone _ pre post (CReceiptStore stored path, e));
         [|reflexivity|exact Heq];
         repeat (apply Forall_cons_2; [reflexivity|]); apply Forall_nil_2).
  destruct (value (install _ opts w)) eqn:Hv; cbn in Heq.
  - exfalso. eapply (Hnone _ pre post (CReceiptStore stored path, e));
      [|reflexivity|exact Heq].
    repeat (apply Forall_cons_2; [reflexivity|]). apply install_no_store.
  - change (?a :: ?b :: ?l ++ [?x]) with ((a :: b :: l) ++ [x]) in Heq.
    apply Hsplit in Heq; [|repeat (apply Forall_cons_2; [reflexivity|]);
                            apply install_no_store | reflexivity].
    destruct Heq as (-> & Heq). injection Heq as <- <- _.
    repeat split. now exists candidate.
Qed.

End results.

(** * Further properties of the installer *)

Section uninstall_more.
Context `{Collaborators}.

(** [Uninstall] of a plugin other than [krew] whose receipt loads, by the
    outcome of [removeLink] and of [os.RemoveAll]. *)
Lemma Uninstall_installed (p : Paths) (name : string) (w : World) (found : Plugin) :
  name <> krewPluginName ->
  receipt_load (PluginInstallReceiptPath p name) w = (found, None) ->
  let rp := PluginInstallReceiptPath p name in
  let dir := PluginInstallPath p name in
  let rl := removeLink (linkPath (BinPath p) name w) w in
  let rm := sys_RemoveAll dir (after rl) in
  let rr := sys_Remove rp rm.2 in
  let head := [(CReceiptLoad rp, None); (CGetenv "KREW_OS", None)] ++ trace rl in
  Uninstall p name w
  = match value rl, rm.1 with
    | Some e, _ =>
        {| value := errors_Wrap (Some e) "could not uninstall symlink of plugin";
           after := after rl; trace := head |}
    | None, Some e =>
        {| value := errors_Wrapf (Some e) "could not remove plugin directory %q" [dir];
           after := rm.2; trace := head ++ [(CRemoveAll dir, rm.1)] |}
    | None, None =>
        {| value := errors_Wrapf rr.1 "could not remove plugin receipt %q" [rp];
           after := rr.2;
           trace := head ++ [(CRemoveAll dir, None); (CRemove rp, rr.1)] |}
    end.
Proof.
  intros Hname Hld rp dir rl rm rr head. subst head rr rm rp dir. unfold Uninstall.
  apply String.eqb_neq in Hname. rewrite Hname. run.
  rewrite Hld. cbn. rewrite (isWindows_run w). cbn.
  unfold linkPath in rl. fold rl. destruct rl as [[e|] wr tr]; cbn.
  - now rewrite app_nil_r.
  - destruct (sys_RemoveAll _ wr) as [[e|] wd]; cbn; [reflexivity|].
    now destruct (sys_Remove _ wd) as [[e|] wf].
Qed.

End uninstall_more.

(** X1. [Uninstall] changes nothing unless the name is not the reserved
    [krew] and the receipt of the plugin loads: for [krew], and for a plugin
    whose receipt does not load, it fails, leaves the world as it is and
    makes no call that can change the file system. When the receipt is not
    found the error is the sentinel [ErrIsNotInstalled] itself. *)
Theorem Uninstall_touches_installed_only `{Collaborators}
    (p : Paths) (name : string) (w : World) :
  name = krewPluginName \/ (receipt_load (PluginInstallReceiptPath p name) w).2 <> None ->
  let r := Uninstall p name w in
  value r <> None /\ after r = w
  /\ Forall (fun ev : Event => mutates ev.1 = false) (trace r)
  /\ (name <> krewPluginName ->
      os_IsNotExist (receipt_load (PluginInstallReceiptPath p name) w).2 = true ->
      value r = ErrIsNotInstalled).
Proof.
  intros Hcase r. subst r.
  destruct (String.eqb_spec name krewPluginName) as [->|Hname].
  - rewrite Uninstall_self. cbn.
    split; [discriminate|]. split; [reflexivity|]. split; [|contradiction].
    now repeat constructor.
  - destruct Hcase as [Hk|Hload]; [contradiction|].
    destruct (receipt_load (PluginInstallReceiptPath p name) w) as [found [e|]] eqn:Hld;
      [|cbn in Hload; contradiction].
    rewrite (Uninstall_not_installed p name w found e Hname Hld). cbn.
    split; [now destruct (os_IsNotExist (Some e))|]. split; [reflexivity|].
    split; [now repeat constructor|].
    intros _ Hne. now rewrite Hne.
Qed.

(** X2. A link that is already gone does not stop [Uninstall]: when
    nothing is found at the link path of an installed plugin, [Uninstall]
    goes on to remove the install directory and then the receipt, and it
    succeeds exactly when both removals do. *)
Theorem Uninstall_without_link `{Collaborators}
    (p : Paths) (name : string) (w : World) (found : Plugin) (fi : FileInfo) (err : error) :
  name <> krewPluginName ->
  receipt_load (PluginInstallReceiptPath p name) w = (found, None) ->
  let rp := PluginInstallReceiptPath p name in
  let dir := PluginInstallPath p name in
  let sym := filepath_Join (BinPath p) (pluginNameToBin name (value (isWindows w))) in
  sys_Lstat sym w = (fi, err) ->
  os_IsNotExist err = true ->
  let rm := sys_RemoveAll dir w in
  let rr := sys_Remove rp rm.2 in
  let r := Uninstall p name w in
  trace r = [(CReceiptLoad rp, None); (CGetenv "KREW_OS", None); (CLstat sym, err);
             (CRemoveAll dir, rm.1)]
            ++ (if rm.1 is None then [(CRemove rp, rr.1)] else [])
  /\ after r = (if rm.1 is None then rr.2 else rm.2)
  /\ (value r = None <-> rm.1 = None /\ rr.1 = None).
Proof.
  intros Hname Hld rp dir sym Hl Hne rm rr r. subst r.
  pose proof (Uninstall_installed p name w found Hname Hld) as Hu. cbv zeta in Hu.
  rewrite Hu. clear Hu. unfold linkPath. fold sym.
  rewrite (removeLink_absent sym w fi err Hl Hne). cbn. fold dir rp. fold rm.
  destruct rm.1 as [e|] eqn:Hrm; cbn.
  - split; [reflexivity|]. split; [reflexivity|]. split; [discriminate|]. now intros [? _].
  - fold rr. split; [reflexivity|]. split; [reflexivity|].
    destruct rr.1; cbn; split; try discriminate; auto. now intros [_ ?].
Qed.

(** X3. [Uninstall] never deletes what is in the way of a link: when the
    link path of an installed plugin holds an entry that is not a symlink,
    [Uninstall] fails after the [os.Lstat], leaves the world as it is, and
    removes neither the install directory nor the receipt. *)
Theorem Uninstall_foreign_link `{Collaborators}
    (p : Paths) (name : string) (w : World) (found : Plugin) (fi : FileInfo) :
  name <> krewPluginName ->
  receipt_load (PluginInstallReceiptPath p name) w = (found, None) ->
  let sym := filepath_Join (BinPath p) (pluginNameToBin name (value (isWindows w))) in
  sys_Lstat sym w = (fi, None) ->
  Z.land (Mode fi) os_ModeSymlink = 0 ->
  let r := Uninstall p name w in
  value r <> None /\ after r = w
  /\ trace r = [(CReceiptLoad (PluginInstallReceiptPath p name), None);
                (CGetenv "KREW_OS", None); (CLstat sym, None)].
Proof.
  intros Hname Hld sym Hl Hm r. subst r.
  pose proof (Uninstall_installed p name w found Hname Hld) as Hu. cbv zeta in Hu.
  rewrite Hu. clear Hu. unfold linkPath. fold sym.
  rewrite (removeLink_foreign sym w fi Hl Hm). cbn.
  split; [discriminate|]. now split.
Qed.

(** X4. Replacing a link is not atomic: when the link path holds a
    symlink and [os.Remove] takes it away, but the binary to link is not
    found, [createOrUpdateLink] fails without creating a symlink. The old
    link is gone and no new one is there. *)
Theorem createOrUpdateLink_missing_binary `{Collaborators}
    (binDir binary plugin : string) (w w1 : World) (fi fi' : FileInfo) (err : error) :
  let dst := filepath_Join binDir (pluginNameToBin plugin (value (isWindows w))) in
  sys_Lstat dst w = (fi, None) ->
  Z.land (Mode fi) os_ModeSymlink <> 0 ->
  sys_Remove dst w = (None, w1) ->
  sys_Stat binary w1 = (fi', err) ->
  os_IsNotExist err = true ->
  let r := createOrUpdateLink binDir binary plugin w in
  value r <> None /\ after r = w1
  /\ trace r = [(CGetenv "KREW_OS", None); (CLstat dst, None); (CRemove dst, None);
                (CStat binary, err)].
Proof.
  intros dst Hl Hm Hrm Hst Hne r. subst r.
  pose proof (removeLink_symlink dst w fi Hl Hm) as Hrl. rewrite Hrm in Hrl. cbn in Hrl.
  assert (value (removeLink (linkPath binDir plugin w) w) = None) as Hv
    by (unfold linkPath; fold dst; now rewrite Hrl).
  pose proof (createOrUpdateLink_unlinked binDir binary plugin w Hv) as Hc.
  cbv zeta in Hc. rewrite Hc. clear Hc. unfold linkPath. fold dst. rewrite Hrl. cbn.
  rewrite Hst. cbn. rewrite Hne. cbn.
  split; [|now split].
  destruct err as [e|]; [discriminate|]. discriminate Hne.
Qed.

(** X5. Only a not-exist answer of [os.Stat] stops the link: when
    [os.Stat] of the binary fails with any other error, [createOrUpdateLink]
    still calls [os.Symlink], and it succeeds exactly when that call does. *)
Theorem createOrUpdateLink_stat_error_ignored `{Collaborators}
    (binDir binary plugin : string) (w : World) (fi : FileInfo) (e : errval) :
  let dst := filepath_Join binDir (pluginNameToBin plugin (value (isWindows w))) in
  let rl := removeLink dst w in
  value rl = None ->
  sys_Stat binary (after rl) = (fi, Some e) ->
  os_IsNotExist (Some e) = false ->
  let sl := sys_Symlink binary dst (after rl) in
  let r := createOrUpdateLink binDir binary plugin w in
  trace r = (CGetenv "KREW_OS", None)
              :: trace rl ++ [(CStat binary, Some e); (CSymlink binary dst, sl.1)]
  /\ after r = sl.2
  /\ (value r = None <-> sl.1 = None).
Proof.
  intros dst rl Hv Hst Hne sl r. subst r sl rl.
  pose proof (createOrUpdateLink_unlinked binDir binary plugin w Hv) as Hc.
  cbv zeta in Hc. rewrite Hc. clear Hc. unfold linkPath. fold dst.
  rewrite Hst. cbn. rewrite Hne. cbn.
  split; [reflexivity|]. split; [reflexivity|].
  now destruct (sys_Symlink binary dst _).1.
Qed.

Section install_more.
Context `{Collaborators}.

Lemma createOrUpdateLink_tolerates (binDir binary plugin staging : string) (w : World) :
  value (createOrUpdateLink binDir binary plugin w) = None ->
  Forall (fun ev : Event => ev.2 = None \/ tolerated staging ev = true)
    (trace (createOrUpdateLink binDir binary plugin w)).
Proof.
  intros Hv.
  destruct (value (removeLink (linkPath binDir plugin w) w)) as [e|] eqn:Hrl.
  { rewrite (createOrUpdateLink_unlink_fails _ _ _ _ e Hrl) in Hv. discriminate. }
  pose proof (createOrUpdateLink_unlinked binDir binary plugin w Hrl) as Hc.
  cbv zeta in Hc. rewrite Hc in *. clear Hc.
  assert (Hrm : Forall (fun ev : Event => ev.2 = None \/ tolerated staging ev = true)
                  (trace (removeLink (linkPath binDir plugin w) w))).
  { destruct (removeLink_cases (linkPath binDir plugin w) w)
      as [(err & Hne & Hr)|[(e & Hr)|[Hr|Hr]]]; rewrite Hr in *; cbn in *;
      try discriminate.
    - apply Forall_cons_2; [|apply Forall_nil_2]. right. exact Hne.
    - destruct (sys_Remove _ w).1; [discriminate|].
      repeat (apply Forall_cons_2; [now left|]). apply Forall_nil_2. }
  destruct (sys_Stat binary _) as [fi st] eqn:Hst. cbn in *.
  destruct (os_IsNotExist st) eqn:Hne; cbn in *.
  - destruct st; [discriminate|]. discriminate Hne.
  - destruct (sys_Symlink binary _ _).1; [discriminate|].
    apply Forall_cons_2; [now left|]. apply Forall_app. split; [exact Hrm|].
    apply Forall_cons_2.
    + destruct st; [right; cbn; now rewrite Hne | now left].
    + apply Forall_cons_2; [now left | apply Forall_nil_2].
Qed.

End install_more.

(** X6. [install] links nothing that has not passed the path check: every
    [os.Symlink] it calls points at [fullPath], and is made in a world in
    which both [filepath.Abs] calls succeeded and [pathutil.IsSubPath] put
    the binary below the install directory. *)
Theorem install_links_checked_binary `{Collaborators}
    (op : installOperation) (opts : InstallOpts) (w : World)
    (old new : string) (e : error) :
  In (CSymlink old new, e) (trace (install op opts w)) ->
  old = filepath_Join (installDir op) (filepath_FromSlash (Bin (platform op)))
  /\ exists (w3 : World) (subPathAbs pathAbs : string),
       sys_Abs (installDir op) w3 = (subPathAbs, None)
       /\ sys_Abs old w3 = (pathAbs, None)
       /\ (pathutil_IsSubPath subPathAbs pathAbs).2 = true.
Proof.
  assert (Hfull : fullPath op
                  = filepath_Join (installDir op) (filepath_FromSlash (Bin (platform op)))).
  { unfold fullPath, applyDefaults. now destruct (Files (platform op)). }
  install_exits op opts w; unfold cleaned, ev_mkdir, ev_download, ev_move, ev_abs_dir,
    ev_abs_bin; cbn; rewrite ?in_app_iff; cbn; intros Hin;
    try (exfalso; intuition discriminate).
  assert (In (CSymlink old new, e)
            (trace (createOrUpdateLink (binDir op) (fullPath op) (pluginName op) w3))) as Hc.
  { repeat (destruct Hin as [Hin|Hin]; try discriminate; try contradiction). exact Hin. }
  apply createOrUpdateLink_symlink_calls in Hc. destruct Hc as [-> _].
  split; [exact Hfull|]. now exists w3, subPathAbs, pathAbs.
Qed.

(** X7. The steps of [install] run in order, each only after the ones
    before it succeeded: the relocator is called only after [os.MkdirAll]
    and the download succeeded, and the link manager makes a call only after
    relocation and both [filepath.Abs] calls succeeded as well. *)
Theorem install_step_order `{Collaborators}
    (op : installOperation) (opts : InstallOpts) (w : World) :
  let r := install op opts w in
  (forall (src dst : string) (files : option (list FileOperation)) (e : error),
     In (CMoveToInstallDir src dst files, e) (trace r) ->
     exists post,
       trace r = ev_mkdir op :: ev_download op opts :: (CMoveToInstallDir src dst files, e)
                   :: post)
  /\ (forall ev : Event,
        In ev (trace r) -> is_link_call ev.1 = true ->
        exists post,
          trace r = [ev_mkdir op; ev_download op opts; ev_move op; ev_abs_dir op;
                     ev_abs_bin op] ++ post).
Proof.
  intros r. subst r. split.
  - intros src dst files e.
    install_exits op opts w; unfold cleaned, ev_mkdir, ev_download, ev_move, ev_abs_dir,
      ev_abs_bin; cbn; rewrite ?in_app_iff; cbn; intros Hin.
    6: { destruct Hin as [Hin|[Hin|[Hin|[Hin|[Hin|[Hin|Hin]]]]]]; try discriminate.
         - injection Hin as <- <- <- <-. eexists. reflexivity.
         - pose proof (createOrUpdateLink_calls (binDir op) (fullPath op) (pluginName op) w3)
             as Hf.
           rewrite Forall_forall in Hf. apply list_elem_of_In, Hf in Hin. discriminate.
         - destruct Hin as [Hin|[]]. discriminate. }
    all: repeat (destruct Hin as [Hin|Hin]; try discriminate; try contradiction);
      injection Hin as <- <- <- <-; eexists; reflexivity.
  - intros ev.
    install_exits op opts w; unfold cleaned, ev_mkdir, ev_download, ev_move, ev_abs_dir,
      ev_abs_bin; cbn; rewrite ?in_app_iff; cbn; intros Hin Hlink.
    6: { eexists. reflexivity. }
    all: exfalso;
      repeat (destruct Hin as [Hin|Hin]; try contradiction; try (subst ev; discriminate)).
Qed.

(** X8. What a [nil] of [install] means. The failed path check is
    swallowed: when [os.MkdirAll], the download, the relocation and the two
    [filepath.Abs] succeed and [pathutil.IsSubPath] does not put the binary
    below the install directory, [install] returns [nil]. And when [install]
    returns [nil], every call it made succeeded, except possibly the
    deferred removal of the staging directory, an [os.Lstat] that found
    nothing at the link path, and an [os.Stat] of the binary that failed
    with an error other than not-exist; moreover either the path check
    passed and a successful [os.Symlink] from the link path to the binary is
    among the calls, or the path check failed, no call of the link manager
    was made, the calls are [os.MkdirAll], the download, the relocation, the
    two [filepath.Abs] and the deferred [os.RemoveAll], and the world is the
    one this removal made of the world after the relocation. *)
Theorem install_tolerated_failures `{Collaborators}
    (op : installOperation) (opts : InstallOpts) (w : World) :
  let staging := downloadStagingDir op in
  let mk := sys_MkdirAll staging 493 w in
  let dl := downloader_get (downloaderOf op opts) (URI (platform op)) staging mk.2 in
  let mv := move_to_install_dir staging (installDir op)
              (Files (applyDefaults (platform op))) dl.2 in
  let w3 := mv.2 in
  let subPathAbs := sys_Abs (installDir op) w3 in
  let pathAbs := sys_Abs (fullPath op) w3 in
  let inside := (pathutil_IsSubPath subPathAbs.1 pathAbs.1).2 in
  let r := install op opts w in
  (mk.1 = None /\ dl.1 = None /\ mv.1 = None /\ subPathAbs.2 = None /\ pathAbs.2 = None
   /\ inside = false ->
   value r = None)
  /\ (value r = None ->
      Forall (fun ev : Event => ev.2 = None \/ tolerated staging ev = true) (trace r)
      /\ (inside = true ->
          In (CSymlink (fullPath op) (linkPath (binDir op) (pluginName op) w3), None)
            (trace r))
      /\ (inside = false ->
          trace r = [ev_mkdir op; ev_download op opts; ev_move op; ev_abs_dir op;
                     ev_abs_bin op; (CRemoveAll staging, (sys_RemoveAll staging w3).1)]
          /\ after r = (sys_RemoveAll staging w3).2)).
Proof.
  intros staging mk dl mv w3 subPathAbs pathAbs inside r.
  subst r inside pathAbs subPathAbs w3 mv dl mk staging.
  assert (Hlast : forall wb : World,
             (CRemoveAll (stagingDir op), (sys_RemoveAll (stagingDir op) wb).1).2 = None
             \/ tolerated (downloadStagingDir op)
                  (CRemoveAll (stagingDir op), (sys_RemoveAll (stagingDir op) wb).1) = true).
  { intros wb. right. unfold tolerated, stagingDir. cbn. apply String.eqb_refl. }
  split.
  - install_exits op opts w; unfold cleaned; cbn [value after trace];
      unfold stagingDir in *; intros (H1 & H2 & H3 & H4 & H5 & Hi);
      rewrite Hmk in *; cbn [fst snd] in *; try discriminate;
      rewrite Hdl in *; cbn [fst snd] in *; try discriminate;
      rewrite Hmv in *; cbn [fst snd] in *; try discriminate;
      rewrite Ha in *; cbn [fst snd] in *; try discriminate;
      rewrite Hb in *; cbn [fst snd] in *; try discriminate;
      [congruence | reflexivity].
  - install_exits op opts w; unfold cleaned; cbn [value after trace]; try discriminate;
      intros Hv; unfold stagingDir in *;
      rewrite Hmk; cbn [fst snd]; rewrite Hdl; cbn [fst snd]; rewrite Hmv; cbn [fst snd];
      rewrite Ha, Hb; cbn [fst snd]; rewrite Hsub.
    + split; [|split; [intros _ | discriminate]].
      * unfold ev_mkdir, ev_download, ev_move, ev_abs_dir, ev_abs_bin.
        repeat (apply Forall_cons_2; [now left|]).
        apply Forall_app. split.
        -- apply createOrUpdateLink_tolerates.
           now destruct (value (createOrUpdateLink (binDir op) (fullPath op) (pluginName op) w3)).
        -- apply Forall_cons_2; [apply Hlast | apply Forall_nil_2].
      * destruct (createOrUpdateLink_publishes (binDir op) (fullPath op) (pluginName op) w3)
          as (pre & -> & _).
        { now destruct (value (createOrUpdateLink (binDir op) (fullPath op) (pluginName op) w3)). }
        rewrite !in_app_iff. left. right. right. left. reflexivity.
    + split; [|split; [discriminate | intros _; now split]].
      unfold ev_mkdir, ev_download, ev_move, ev_abs_dir, ev_abs_bin.
      repeat (apply Forall_cons_2; [now left|]).
      apply Forall_cons_2; [apply Hlast | apply Forall_nil_2].
Qed.

Section Install_more.
Context `{Collaborators}.

Lemma install_download_calls (op : installOperation) (opts : InstallOpts) (w : World)
    (d : Downloader) (uri dst : string) (e : error) :
  In (CDownloaderGet d uri dst, e) (trace (install op opts w)) ->
  d = downloaderOf op opts /\ uri = URI (platform op) /\ dst = downloadStagingDir op.
Proof.
  install_exits op opts w; unfold cleaned, ev_mkdir, ev_download, ev_move, ev_abs_dir,
    ev_abs_bin, stagingDir; cbn; rewrite ?in_app_iff; cbn; intros Hin.
  6: { destruct Hin as [Hin|[Hin|[Hin|[Hin|[Hin|[Hin|Hin]]]]]]; try discriminate.
       - now injection Hin as <- <- <- <-.
       - pose proof (createOrUpdateLink_calls (binDir op) (fullPath op) (pluginName op) w3)
           as Hf.
         rewrite Forall_forall in Hf. apply list_elem_of_In, Hf in Hin. discriminate.
       - destruct Hin as [Hin|[]]. discriminate. }
  all: repeat (destruct Hin as [Hin|Hin]; try discriminate; try contradiction);
    now injection Hin as <- <- <- <-.
Qed.

End Install_more.

(** X9. A receipt that cannot be stored is reported, and nothing is rolled
    back: when no receipt was found, a platform matched and [install]
    returned [nil], but [receipt.Store] fails, [Install] returns that error
    wrapped, the failed [receipt.Store] is its last call, and the world is
    the one this call left. *)
Theorem Install_store_failure `{Collaborators}
    (p : Paths) (plugin : Plugin) (opts : InstallOpts) (w w' : World)
    (found : Plugin) (e0 e : errval) (c : Platform) :
  let rp := PluginInstallReceiptPath p (Name plugin) in
  let i := install (operationOf p plugin c) opts w in
  receipt_load rp w = (found, Some e0) ->
  os_IsNotExist (Some e0) = true ->
  matchPlatform (Platforms (Spec plugin)) w = (c, true, None) ->
  value i = None ->
  receipt_store plugin rp (after i) = (Some e, w') ->
  let r := Install p plugin opts w in
  value r = Some (WithMessage e
                    "installation receipt could not be stored, uninstall may fail" [])
  /\ after r = w'
  /\ trace r = [(CReceiptLoad rp, Some e0);
                (CGetMatchingPlatform (Platforms (Spec plugin)), None)]
               ++ trace i ++ [(CReceiptStore plugin rp, Some e)].
Proof.
  intros rp i Hld Hne Hm Hi Hst r. subst r.
  pose proof (Install_installs p plugin opts w found e0 Hld Hne c Hm) as Hin.
  cbv zeta in Hin. rewrite Hin. clear Hin. fold i. rewrite Hi. fold rp. rewrite Hst.
  cbn. now repeat split.
Qed.

(** X10. Whatever is downloaded is checked against the manifest: every
    call of the downloader made by [Install] carries the [sha256] of the
    platform entry that the matcher chose as its verifier, fetches the URI
    of that entry into the staging directory of the plugin, and uses the file
    fetcher exactly when an override file is given. An override never
    switches the checksum off. *)
Theorem Install_download_verified `{Collaborators}
    (p : Paths) (plugin : Plugin) (opts : InstallOpts) (w : World)
    (d : Downloader) (uri dst : string) (e : error) :
  In (CDownloaderGet d uri dst, e) (trace (Install p plugin opts w)) ->
  exists c : Platform,
    matchPlatform (Platforms (Spec plugin)) w = (c, true, None)
    /\ verifier d = Sha256 c
    /\ uri = URI c
    /\ dst = filepath_Join (DownloadPath p) (Name plugin)
    /\ fetcher d = (if String.eqb (ArchiveFileOverride opts) "" then HTTPFetcher
                    else FileFetcher (ArchiveFileOverride opts)).
Proof.
  assert (Hin_install : forall c : Platform,
             In (CDownloaderGet d uri dst, e) (trace (install (operationOf p plugin c) opts w)) ->
             verifier d = Sha256 c /\ uri = URI c
             /\ dst = filepath_Join (DownloadPath p) (Name plugin)
             /\ fetcher d = (if String.eqb (ArchiveFileOverride opts) "" then HTTPFetcher
                             else FileFetcher (ArchiveFileOverride opts))).
  { intros c Hin. apply install_download_calls in Hin. destruct Hin as (-> & -> & ->).
    unfold downloaderOf, operationOf. cbn.
    repeat split. now destruct (String.eqb (ArchiveFileOverride opts) ""). }
  Install_exits p plugin opts w; unfold ev_lookup; cbn;
    try (intros Hin; exfalso; intuition discriminate).
  destruct (value (install _ opts w)) eqn:Hv; cbn; rewrite ?in_app_iff; cbn; intros Hin.
  - destruct Hin as [Hin|[Hin|Hin]]; try discriminate.
    exists candidate. split; [reflexivity|]. now apply Hin_install.
  - destruct Hin as [Hin|[Hin|[Hin|[Hin|[]]]]]; try discriminate.
    exists candidate. split; [reflexivity|]. now apply Hin_install.
Qed.

(** ** More on the executable name *)

Lemma append_length (s t : string) :
  String.length (s +:+ t) = (String.length s + String.length t)%nat.
Proof.
  induction s as [|c s IH]; [reflexivity|].
  change (S (String.length (s +:+ t)) = S (String.length s + String.length t)).
  now rewrite IH.
Qed.

Lemma append_inj_l (s t u : string) : s +:+ u = t +:+ u -> s = t.
Proof.
  revert t. induction s as [|c s IH]; intros [|d t] Heq; [reflexivity| | |].
  - apply (f_equal String.length) in Heq. rewrite !append_length in Heq.
    cbn in Heq. lia.
  - apply (f_equal String.length) in Heq. rewrite !append_length in Heq.
    cbn in Heq. lia.
  - change (String c (s +:+ u) = String d (t +:+ u)) in Heq.
    injection Heq as -> Heq. f_equal. now apply IH.
Qed.

Lemma dash_to_underscore_length (s : string) :
  String.length (dash_to_underscore s) = String.length s.
Proof. induction s as [|c s IH]; cbn; [reflexivity | now rewrite IH]. Qed.

Lemma dash_to_underscore_no_dash (s : string) :
  has_char "-"%char (dash_to_underscore s) = false.
Proof.
  induction s as [|c s IH]; [reflexivity|]. cbn. rewrite IH, orb_false_r.
  now destruct (Ascii.eqb_spec c "-"%char) as [->|Hc]; [|apply Ascii.eqb_neq].
Qed.

Lemma dash_to_underscore_inj (s t : string) :
  has_char "_"%char s = false -> has_char "_"%char t = false ->
  dash_to_underscore s = dash_to_underscore t -> s = t.
Proof.
  revert t. induction s as [|c s IH]; intros [|d t] Hs Ht Heq; try discriminate;
    [reflexivity|].
  cbn in Hs, Ht, Heq. apply orb_false_iff in Hs, Ht.
  destruct Hs as [Hc Hs], Ht as [Hd Ht]. injection Heq as Hcd Heq.
  f_equal; [|now apply IH].
  apply Ascii.eqb_neq in Hc, Hd.
  destruct (Ascii.eqb_spec c "-"%char) as [->|Hc'], (Ascii.eqb_spec d "-"%char) as [->|Hd'];
    congruence.
Qed.

(** X11. Among plugin names without [_] the executable name identifies
    the plugin: two such names with the same executable name, on the same
    target, are the same name. The collisions of C10 need an underscore. *)
Theorem pluginNameToBin_injective (n1 n2 : string) (windows : bool) :
  has_char "_"%char n1 = false ->
  has_char "_"%char n2 = false ->
  pluginNameToBin n1 windows = pluginNameToBin n2 windows ->
  n1 = n2.
Proof.
  intros H1 H2 Heq. rewrite !pluginNameToBin_eq in Heq.
  apply (dash_to_underscore_inj n1 n2 H1 H2).
  assert (forall a b : string, "kubectl-" +:+ a = "kubectl-" +:+ b -> a = b) as Hpre.
  { intros a b Hab. unfold String.append in Hab. now injection Hab. }
  apply Hpre in Heq. now apply append_inj_l in Heq.
Qed.

(** X12. The executable name is [kubectl-], a middle part, and [.exe] on
    the Windows target only; the middle part is as long as the plugin name,
    contains no [-], and contains a character other than [-] and [_]
    exactly when the name contains it. *)
Theorem pluginNameToBin_shape (name : string) (windows : bool) :
  exists middle : string,
    pluginNameToBin name windows
    = "kubectl-" +:+ middle +:+ (if windows then ".exe" else "")
    /\ String.length middle = String.length name
    /\ has_char "-"%char middle = false
    /\ (forall c : ascii,
          c <> "-"%char -> c <> "_"%char -> has_char c middle = has_char c name).
Proof.
  exists (dash_to_underscore name).
  split; [apply pluginNameToBin_eq|].
  split; [apply dash_to_underscore_length|].
  split; [apply dash_to_underscore_no_dash|].
  intros c Hc Hu.
  induction name as [|a name IH]; [reflexivity|]. cbn. rewrite IH. f_equal.
  destruct (Ascii.eqb_spec a "-"%char) as [->|Ha]; [|reflexivity].
  transitivity false; [now apply Ascii.eqb_neq | symmetry; now apply Ascii.eqb_neq].
Qed.

(** * Properties of the site functions *)

(** ** [filterYAMLs] *)

Lemma filterYAMLs_filter (entries : list (option RepositoryContent)) :
  filterYAMLs entries = filter (fun v => is_yaml_file v = true) entries.
Proof.
  unfold filterYAMLs.
  enough (forall acc : list (option RepositoryContent),
             foldl (fun out v =>
                      match v with
                      | None => out
                      | Some c =>
                          if String.eqb (GetType c) "file"
                             && strings_HasSuffix (GetName c) ".yaml"
                          then out ++ [v] else out
                      end) acc entries
             = acc ++ filter (fun v => is_yaml_file v = true) entries) as Hacc
    by apply (Hacc []).
  induction entries as [|v entries IH]; intros acc; cbn [foldl].
  - now rewrite filter_nil, app_nil_r.
  - rewrite IH, filter_cons. destruct v as [c|]; cbn [is_yaml_file].
    + destruct (String.eqb (GetType c) "file" && strings_HasSuffix (GetName c) ".yaml");
        [|reflexivity].
      rewrite decide_True by reflexivity. now rewrite <- app_assoc.
    + now rewrite decide_False by discriminate.
Qed.

(** X13. [filterYAMLs] returns, in the order of the listing, exactly the
    entries that are not [nil], have the type [file] and a name ending in
    [.yaml]; it returns no [nil] entry and never more entries than it was
    given, so the plugin count is at most the size of the listing. *)
Theorem filterYAMLs_spec (entries : list (option RepositoryContent)) :
  sublist (filterYAMLs entries) entries
  /\ (forall v : option RepositoryContent,
        v ∈ filterYAMLs entries
        <-> v ∈ entries
            /\ exists c, v = Some c /\ GetType c = "file"
                         /\ strings_HasSuffix (GetName c) ".yaml" = true)
  /\ (length (filterYAMLs entries) <= length entries)%nat.
Proof.
  rewrite filterYAMLs_filter. split; [apply sublist_filter|]. split.
  - intros v. rewrite list_elem_of_filter. split.
    + intros [Hy Hin]. split; [exact Hin|]. destruct v as [c|]; [|discriminate].
      cbn in Hy. apply andb_true_iff in Hy. destruct Hy as [Ht Hn].
      exists c. split; [reflexivity|]. split; [now apply String.eqb_eq | exact Hn].
    + intros [Hin (c & -> & Ht & Hn)]. split; [|exact Hin].
      cbn. now rewrite Ht, Hn.
  - apply length_filter.
Qed.

(** X14. Filtering composes: the filter of a concatenated listing is the
    concatenation of the filters, filtering twice is filtering once, and a
    listing of [.yaml] files only is returned as it is. *)
Theorem filterYAMLs_compose (a b : list (option RepositoryContent)) :
  filterYAMLs (a ++ b) = filterYAMLs a ++ filterYAMLs b
  /\ filterYAMLs (filterYAMLs a) = filterYAMLs a
  /\ (forallb is_yaml_file a = true -> filterYAMLs a = a).
Proof.
  rewrite !filterYAMLs_filter. split; [apply filter_app|]. split.
  - induction a as [|v a IH]; [reflexivity|]. rewrite filter_cons.
    destruct (decide (is_yaml_file v = true)) as [Hv|Hv]; [|exact IH].
    rewrite filter_cons, decide_True by exact Hv. now rewrite IH.
  - induction a as [|v a IH]; [reflexivity|]. cbn [forallb]. intros Hall.
    apply andb_true_iff in Hall. destruct Hall as [Hv Hall].
    rewrite filter_cons, decide_True by exact Hv. now rewrite IH.
Qed.

(** ** The matcher *)

Lemma append_cons (a : ascii) (s t : string) : String a s +:+ t = String a (s +:+ t).
Proof. reflexivity. Qed.

Lemma push_append (inside : bool) (cap taken : string) (a : ascii) :
  (if inside then push inside cap a +:+ taken else push inside cap a)
  = (if inside then cap +:+ String a taken else cap).
Proof. destruct inside; cbn; [|reflexivity]. now rewrite append_assoc. Qed.

(** What a successful greedy repetition has done: it took a run of
    characters of the class, not empty unless it was allowed to stop at
    once, and the rest of the pattern matched what is left. *)
Lemma greedy_sound (k : class) (inside : bool) (next : string -> string -> option string)
    (s cap : string) (enough : bool) (r : string) :
  greedy k inside next s cap enough = Some r ->
  exists taken rest,
    s = taken +:+ rest
    /\ string_forall (class_matches k) taken = true
    /\ (enough = false -> taken <> "")
    /\ next rest (if inside then cap +:+ taken else cap) = Some r.
Proof.
  revert cap enough. induction s as [|a s IH]; intros cap enough Hg; cbn in Hg.
  - destruct enough; [|discriminate]. exists "", "".
    split; [reflexivity|]. split; [reflexivity|]. split; [discriminate|].
    destruct inside; [now rewrite append_nil_r | exact Hg].
  - assert (Hstop : (if enough then next (String a s) cap else None) = Some r ->
                    exists taken rest,
                      String a s = taken +:+ rest
                      /\ string_forall (class_matches k) taken = true
                      /\ (enough = false -> taken <> "")
                      /\ next rest (if inside then cap +:+ taken else cap) = Some r).
    { intros Hs. destruct enough; [|discriminate]. exists "", (String a s).
      split; [reflexivity|]. split; [reflexivity|]. split; [discriminate|].
      destruct inside; [now rewrite append_nil_r | exact Hs]. }
    destruct (class_matches k a) eqn:Hk; [|now apply Hstop].
    destruct (greedy k inside next s (push inside cap a) true) as [r'|] eqn:Hrec;
      [|now apply Hstop].
    injection Hg as ->. apply IH in Hrec. destruct Hrec as (taken & rest & -> & Hall & _ & Hn).
    exists (String a taken), rest. split; [reflexivity|]. split; [cbn; now rewrite Hk|].
    split; [discriminate|]. now rewrite push_append in Hn.
Qed.

(** A greedy repetition takes the whole run when the rest matches after
    it. *)
Lemma greedy_take (k : class) (inside : bool) (next : string -> string -> option string)
    (taken rest cap : string) (enough : bool) (r : string) :
  string_forall (class_matches k) taken = true ->
  match rest with
  | EmptyString => True
  | String a _ => class_matches k a = false
  end ->
  enough = true \/ taken <> "" ->
  next rest (if inside then cap +:+ taken else cap) = Some r ->
  greedy k inside next (taken +:+ rest) cap enough = Some r.
Proof.
  revert cap enough. induction taken as [|a taken IH]; intros cap enough Hall Hrest Hen Hn.
  - destruct Hen as [->|Hne]; [|contradiction].
    assert (next rest cap = Some r) as Hn' by (destruct inside; [now rewrite append_nil_r in Hn | exact Hn]).
    change ("" +:+ rest) with rest.
    destruct rest as [|b rest]; cbn; [exact Hn'|]. now rewrite Hrest.
  - cbn in Hall. apply andb_true_iff in Hall. destruct Hall as [Ha Hall].
    rewrite append_cons. cbn. rewrite Ha.
    rewrite (IH (push inside cap a) true Hall Hrest (or_introl eq_refl)); [reflexivity|].
    now rewrite push_append.
Qed.

(** Outside a group a greedy repetition fails when the rest of the pattern
    fails at every position. *)
Lemma greedy_fails (k : class) (next : string -> string -> option string)
    (s cap : string) (enough : bool) :
  all_suffixes (fun t => next t cap = None) s ->
  greedy k false next s cap enough = None.
Proof.
  revert enough. induction s as [|a s IH]; intros enough [Hs Hrest]; cbn.
  - rewrite Hs. now destruct enough.
  - rewrite Hs. rewrite (IH true Hrest). now destruct (class_matches k a), enough.
Qed.

(** Outside a group a greedy repetition gives back what it took down to
    the last position at which the rest of the pattern matches. *)
Lemma greedy_skip (k : class) (next : string -> string -> option string)
    (pre x : string) (b : ascii) (cap r : string) :
  string_forall (class_matches k) pre = true ->
  next (String b x) cap = Some r ->
  all_suffixes (fun t => next t cap = None) x ->
  greedy k false next (pre +:+ String b x) cap true = Some r.
Proof.
  intros Hpre Hn Hx. induction pre as [|a pre IH].
  - change ("" +:+ String b x) with (String b x). cbn.
    rewrite (greedy_fails k next x cap true Hx), Hn. now destruct (class_matches k b).
  - cbn in Hpre. apply andb_true_iff in Hpre. destruct Hpre as [Ha Hpre].
    rewrite append_cons. cbn. rewrite Ha. now rewrite (IH Hpre).
Qed.

Lemma run_regex_literal_fails (lit : string) (re : list token) (t cap : string) :
  strings_HasPrefix t lit = false ->
  run_regex (literal lit ++ re) t false cap = None.
Proof.
  revert t. induction lit as [|c lit IH]; intros t Hp; [now destruct t|].
  destruct t as [|a t]; [reflexivity|]. cbn in Hp |- *.
  rewrite (Ascii.eqb_sym a c). destruct (Ascii.eqb c a); [|reflexivity].
  now apply IH.
Qed.

Lemma run_regex_literal (lit : string) (re : list token) (t cap : string) :
  run_regex (literal lit ++ re) (lit +:+ t) false cap = run_regex re t false cap.
Proof.
  induction lit as [|c lit IH]; [reflexivity|].
  rewrite append_cons. cbn. rewrite Ascii.eqb_refl. exact IH.
Qed.

Lemma run_regex_literal_sound (lit : string) (re : list token) (t cap r : string) :
  run_regex (literal lit ++ re) t false cap = Some r ->
  exists t', t = lit +:+ t' /\ run_regex re t' false cap = Some r.
Proof.
  revert t. induction lit as [|c lit IH]; intros t Hr; [now exists t|].
  destruct t as [|a t]; [discriminate|]. cbn in Hr.
  destruct (Ascii.eqb_spec a c) as [->|_]; [|discriminate].
  apply IH in Hr. destruct Hr as (t' & -> & Hr). now exists t'.
Qed.

Lemma not_contains_suffixes (s lit : string) :
  strings_Contains s lit = false ->
  all_suffixes (fun t => strings_HasPrefix t lit = false) s.
Proof.
  induction s as [|a s IH]; cbn; intros Hc; apply orb_false_iff in Hc; destruct Hc as [Hp Hc].
  - now split.
  - split; [exact Hp | now apply IH].
Qed.

Lemma all_suffixes_impl (P Q : string -> Prop) (s : string) :
  (forall t, P t -> Q t) -> all_suffixes P s -> all_suffixes Q s.
Proof.
  intros HPQ. induction s as [|a s IH]; intros [Hs Hrest]; split; auto.
Qed.

Lemma not_of_has_char (c : ascii) (cs : list ascii) (s : string) :
  In c cs -> string_forall (class_matches (NotOf cs)) s = true -> has_char c s = false.
Proof.
  intros Hin. induction s as [|a s IH]; [reflexivity|]. cbn. intros Hall.
  apply andb_true_iff in Hall. destruct Hall as [Ha Hall]. rewrite (IH Hall), orb_false_r.
  apply negb_true_iff in Ha. apply Ascii.eqb_neq. intros ->.
  assert (existsb (Ascii.eqb c) cs = true) as Hex; [|congruence].
  apply existsb_exists. exists c. split; [exact Hin | apply Ascii.eqb_refl].
Qed.

Lemma has_char_not_of (cs : list ascii) (s : string) :
  (forall c, In c cs -> has_char c s = false) ->
  string_forall (class_matches (NotOf cs)) s = true.
Proof.
  induction s as [|a s IH]; [reflexivity|]. intros Hcs. cbn.
  rewrite IH.
  - rewrite andb_true_r. apply negb_true_iff.
    destruct (existsb (Ascii.eqb a) cs) eqn:Hex; [|reflexivity].
    apply existsb_exists in Hex. destruct Hex as (c & Hin & Hc).
    apply Ascii.eqb_eq in Hc. subst c. specialize (Hcs a Hin). cbn in Hcs.
    now rewrite Ascii.eqb_refl in Hcs.
  - intros c Hin. specialize (Hcs c Hin). cbn in Hcs. now apply orb_false_iff in Hcs.
Qed.

(** What the pattern of [findRepo] captures. *)
Lemma githubRepoPattern_sound (s r : string) :
  run_regex githubRepoPattern s false "" = Some r ->
  exists owner name,
    r = owner +:+ "/" +:+ name
    /\ owner <> "" /\ name <> ""
    /\ has_char "/"%char owner = false
    /\ has_char "/"%char name = false
    /\ has_char "#"%char name = false.
Proof.
  unfold githubRepoPattern. cbn [run_regex]. intros Hr.
  apply greedy_sound in Hr. destruct Hr as (_ & rest & _ & _ & _ & Hr).
  apply run_regex_literal_sound in Hr. destruct Hr as (t & _ & Hr).
  cbn [run_regex] in Hr.
  apply greedy_sound in Hr. destruct Hr as (owner & rest1 & _ & Ho & Hone & Hr).
  destruct rest1 as [|a rest1]; [discriminate|]. cbn in Hr.
  destruct (Ascii.eqb_spec a "/"%char) as [->|_]; [|discriminate].
  apply greedy_sound in Hr. destruct Hr as (name & rest2 & _ & Hn & Hnone & Hr).
  cbn in Hr. injection Hr as <-.
  exists owner, name. split.
  - change ("" +:+ owner) with owner. now rewrite !append_assoc.
  - split; [now apply Hone|]. split; [now apply Hnone|].
    split; [apply (not_of_has_char "/"%char ["/"%char]); [now left | exact Ho]|].
    split; [apply (not_of_has_char "/"%char ["/"%char; "#"%char]); [now left | exact Hn]|].
    apply (not_of_has_char "#"%char ["/"%char; "#"%char]); [now right; left | exact Hn].
Qed.

Lemma FindStringSubmatch_sound (re : list token) (s r : string) :
  FindStringSubmatch re s = Some r ->
  exists t, run_regex re t false "" = Some r.
Proof.
  induction s as [|a s IH]; cbn; intros Hf.
  - destruct (run_regex re "" false "") eqn:Hr; [|discriminate].
    exists "". now rewrite Hr.
  - destruct (run_regex re (String a s) false "") eqn:Hr.
    + exists (String a s). now rewrite Hr.
    + now apply IH.
Qed.

(** ** [findRepo] *)

(** X15. Whatever the homepage, [findRepo] returns either the empty string
    or a repository of the form [owner/name]: two parts that are not empty
    and contain no [/], the second without [#] as well. *)
Theorem findRepo_shape (homePage : string) :
  findRepo homePage = ""
  \/ exists owner name,
       findRepo homePage = owner +:+ "/" +:+ name
       /\ owner <> "" /\ name <> ""
       /\ has_char "/"%char owner = false
       /\ has_char "/"%char name = false
       /\ has_char "#"%char name = false.
Proof.
  unfold findRepo.
  destruct (FindStringSubmatch githubRepoPattern homePage) as [r|] eqn:Hf.
  - right. apply FindStringSubmatch_sound in Hf. destruct Hf as (t & Hr).
    now apply githubRepoPattern_sound in Hr.
  - destruct (knownHomePages !! homePage) as [v|] eqn:Hk; [|now left].
    right. cbn [default]. apply elem_of_list_to_map_2 in Hk.
    repeat (apply elem_of_cons in Hk as [Hk|Hk];
            [injection Hk as _ ->;
             first [ now exists "kubernetes-sigs", "krew"
                   | now exists "kubernetes", "ingress-nginx"
                   | now exists "kudobuilder", "kudo"
                   | now exists "kubevirt", "kubectl-virt-plugin"
                   | now exists "derailed", "popeye"
                   | now exists "soluble-ai", "kubetap" ] |]).
    now apply elem_of_nil in Hk.
Qed.

(** X16. A homepage on GitHub gives its repository: for a homepage that
    is a prefix without a newline, then [github.com/], an owner, [/], a
    name and a tail that is empty or starts with [/] or [#], [findRepo]
    returns [owner/name], provided owner and name are not empty and have no
    [/] (the name no [#] either) and [github.com/] does not occur again after
    the first one. *)
Theorem findRepo_github (pre owner name tail : string) :
  has_char "010"%char pre = false ->
  owner <> "" -> name <> "" ->
  has_char "/"%char owner = false ->
  has_char "/"%char name = false ->
  has_char "#"%char name = false ->
  match tail with
  | EmptyString => True
  | String c _ => c = "/"%char \/ c = "#"%char
  end ->
  strings_Contains (owner +:+ "/" +:+ name +:+ tail) "github.com/" = false ->
  findRepo (pre +:+ "github.com/" +:+ owner +:+ "/" +:+ name +:+ tail)
  = owner +:+ "/" +:+ name.
Proof.
  intros Hpre Ho Hn Hso Hsn Hhn Htail Hocc.
  set (y := owner +:+ "/" +:+ name +:+ tail) in *.
  set (next := fun (s' cap' : string) =>
                 run_regex (literal "github.com/"
                              ++ [Open; Plus (NotOf ["/"%char]); One (Lit "/"%char);
                                  Plus (NotOf ["/"%char; "#"%char]); Close]) s' false cap').
  assert (Hhere : next ("github.com/" +:+ y) "" = Some (owner +:+ "/" +:+ name)).
  { unfold next. rewrite run_regex_literal. cbn [run_regex]. subst y.
    rewrite (greedy_take (NotOf ["/"%char]) true _ owner ("/" +:+ name +:+ tail) ""
               false (owner +:+ "/" +:+ name)); [reflexivity| | | |].
    - apply has_char_not_of. intros c [<-|[]]. exact Hso.
    - reflexivity.
    - now right.
    - change ("" +:+ owner) with owner. rewrite append_cons. cbn.
      change ("" +:+ name +:+ tail) with (name +:+ tail).
      rewrite (greedy_take (NotOf ["/"%char; "#"%char]) true _ name tail
                 (owner +:+ "/") false (owner +:+ "/" +:+ name)); [reflexivity| | | |].
      + apply has_char_not_of. intros c [<-|[<-|[]]]; assumption.
      + destruct tail as [|c tail]; [exact I|]. now destruct Htail as [->| ->].
      + now right.
      + cbn. now rewrite !append_assoc. }
  assert (Hlater : all_suffixes (fun t => next t "" = None) y).
  { eapply all_suffixes_impl; [|apply (not_contains_suffixes y "github.com/" Hocc)].
    intros t Ht. unfold next. now apply run_regex_literal_fails. }
  assert (Hrun : run_regex githubRepoPattern
                   (pre +:+ "github.com/" +:+ y) false ""
                 = Some (owner +:+ "/" +:+ name)).
  { unfold githubRepoPattern. cbn [run_regex]. fold next.
    change ("github.com/" +:+ y) with (String "g" ("ithub.com/" +:+ y)) in *.
    apply greedy_skip.
    - clear -Hpre. induction pre as [|a pre IH]; [reflexivity|]. cbn in Hpre |- *.
      apply orb_false_iff in Hpre. destruct Hpre as [Ha Hpre]. now rewrite Ha, IH.
    - exact Hhere.
    - repeat (rewrite append_cons; split; [reflexivity|]).
      change ("" +:+ y) with y. exact Hlater. }
  unfold findRepo.
  destruct (pre +:+ "github.com/" +:+ y) as [|a s] eqn:Hs; cbn [FindStringSubmatch];
    now rewrite Hrun.
Qed.

Lemma all_suffixes_nested (P : string -> Prop) (s : string) :
  all_suffixes P s -> all_suffixes (all_suffixes P) s.
Proof.
  induction s as [|a s IH]; intros Hs; split; try exact Hs; [exact I|].
  apply IH. apply Hs.
Qed.

Lemma FindStringSubmatch_none (re : list token) (s : string) :
  all_suffixes (fun t => run_regex re t false "" = None) s ->
  FindStringSubmatch re s = None.
Proof.
  induction s as [|a s IH]; intros [Hs Hrest]; cbn [FindStringSubmatch]; rewrite Hs;
    [reflexivity|].
  now apply IH.
Qed.

(** X18. A homepage in which [github.com/] does not occur is looked up in
    the table of known homepages, as it is written: [findRepo] returns the
    entry of the table, and the empty string when there is none. *)
Theorem findRepo_elsewhere (homePage : string) :
  strings_Contains homePage "github.com/" = false ->
  findRepo homePage = default "" (knownHomePages !! homePage).
Proof.
  intros Hc. unfold findRepo.
  rewrite FindStringSubmatch_none; [reflexivity|].
  apply not_contains_suffixes, all_suffixes_nested in Hc.
  eapply all_suffixes_impl; [|exact Hc].
  intros t Ht. unfold githubRepoPattern. cbn [run_regex].
  apply greedy_fails. eapply all_suffixes_impl; [|exact Ht].
  intros u Hu. now apply run_regex_literal_fails.
Qed.

(** * Runs on the host in memory *)

Import MemHost.

(** ** The library functions on small inputs *)

Example strings_Replace_examples :
  strings_Replace "a-b-c" "-" "_" (-1) = "a_b_c"
  /\ strings_Replace "a-b-c" "-" "_" 1 = "a_b-c"
  /\ strings_Replace "a-b-c" "-" "_" 0 = "a-b-c"
  /\ strings_Replace "aaa" "aa" "b" (-1) = "ba"
  /\ strings_Replace "a--b" "--" "+" (-1) = "a+b"
  /\ strings_Replace "abc" "" "-" (-1) = "-a-b-c-"
  /\ strings_Replace "abc" "" "-" 2 = "-a-bc"
  /\ strings_Replace (String "195" (String "169" "b")) "" "-" (-1)
     = "-" +:+ String "195" (String "169" "-b-")
  /\ strings_Replace (String "226" (String "130" (String "172" ""))) "" "-" 2
     = "-" +:+ String "226" (String "130" (String "172" "-"))
  /\ strings_Replace (String "195" "b") "" "-" (-1) = "-" +:+ String "195" "-b-".
Proof. repeat split. Qed.

Example filepath_examples :
  filepath_Clean "/a/../../b/./c//d/.." = "/b/c"
  /\ filepath_Clean "a/../.." = ".."
  /\ filepath_Clean "" = "."
  /\ posix_Join "/krew/store" "foo" = "/krew/store/foo"
  /\ posix_Join "/krew/store/foo/v1" "/etc/passwd" = "/krew/store/foo/v1/etc/passwd"
  /\ posix_Join "/krew/store/foo/v1" "../../../etc/foo" = "/krew/etc/foo"
  /\ mem_IsSubPath "/a/b" "/a/b/c/d" = ("c/d", true)
  /\ mem_IsSubPath "/a/b" "/a/b" = (".", true)
  /\ mem_IsSubPath "/a/b" "/a/bc" = ("", false).
Proof. repeat split. Qed.

Example pluginNameToBin_examples :
  pluginNameToBin "foo" false = "kubectl-foo"
  /\ pluginNameToBin "foo" true = "kubectl-foo.exe"
  /\ pluginNameToBin "view-secret" false = "kubectl-view_secret"
  /\ pluginNameToBin "a-b-c" true = "kubectl-a_b_c.exe".
Proof. repeat split. Qed.

Lemma pluginNameToBin_collision_witness :
  pluginNameToBin "a-b" false = pluginNameToBin "a_b" false
  /\ filepath_Join "/krew/bin" (pluginNameToBin "a-b" false)
     = filepath_Join "/krew/bin" (pluginNameToBin "a_b" false).
Proof.
  apply (pluginNameToBin_collision "a-b" "a_b" false "/krew/bin").
  - discriminate.
  - reflexivity.
Defined.

Lemma published_link_name_witness :
  exists pre,
    trace (createOrUpdateLink "/krew/bin" "/krew/store/foo/v1/foo" "foo" installed)
    = pre ++ [(CSymlink "/krew/store/foo/v1/foo"
                 (filepath_Join "/krew/bin"
                    (pluginNameToBin "foo" (value (isWindows installed)))),
               None)]
    /\ Forall (fun ev : Event => is_symlink_call ev.1 = false) pre.
Proof.
  apply (proj1 (proj2 (proj2 (proj2 published_link_name)))).
  vm_compute. reflexivity.
Defined.

(** C3 as it was stated fails on the Windows target: installing [foo] with
    [KREW_OS=windows] succeeds and publishes [kubectl-foo.exe]; nothing
    named [kubectl_foo.exe] appears in the bin directory. The first run has
    no [files] key; the second has the empty list [files: []] and finds the
    binary already in the install directory. *)
Lemma link_name_on_windows_target :
  let r := Install paths foo no_opts windows_target in
  let r' := Install paths (foo_plugin [foo_platform (Some []) "foo"]) no_opts
              windows_leftover in
  (value r = None
   /\ In (CSymlink "/krew/store/foo/v1/foo" "/krew/bin/kubectl-foo.exe", None) (trace r)
   /\ fs (after r) !! "/krew/bin/kubectl-foo.exe" = Some (Link "/krew/store/foo/v1/foo")
   /\ fs (after r) !! "/krew/bin/kubectl_foo.exe" = None)
  /\ (value r' = None
      /\ In (CSymlink "/krew/store/foo/v1/foo" "/krew/bin/kubectl-foo.exe", None) (trace r')
      /\ fs (after r') !! "/krew/bin/kubectl-foo.exe" = Some (Link "/krew/store/foo/v1/foo")
      /\ fs (after r') !! "/krew/bin/kubectl_foo.exe" = None)
  /\ pluginNameToBin "foo" true <> "kubectl_foo.exe".
Proof.
  cbv zeta. split; [|split].
  - split; [vm_compute; reflexivity|].
    split; [vm_compute; tauto|].
    split; vm_compute; reflexivity.
  - split; [vm_compute; reflexivity|].
    split; [vm_compute; tauto|].
    split; vm_compute; reflexivity.
  - discriminate.
Qed.

Lemma applyDefaults_spec_witness :
  applyDefaults (foo_platform None "foo")
  = {| URI := "file:///tmp/foo.tar.gz"; Sha256 := "d1ce"; Selector := "";
       Files := Some [ {| From := "*"; To := "." |} ]; Bin := "foo" |}.
Proof. apply (proj1 applyDefaults_spec (foo_platform None "foo")). reflexivity. Defined.

(** C9 as it was stated fails for a list that is empty and not [nil]:
    [applyDefaults] leaves it empty, and [install] hands the empty list to
    the relocator. *)
Lemma applyDefaults_keeps_empty_list :
  Files (applyDefaults (foo_platform (Some []) "foo")) = Some []
  /\ Files (applyDefaults (foo_platform (Some []) "foo"))
     <> Some [ {| From := "*"; To := "." |} ]
  /\ In (CMoveToInstallDir "/krew/download/foo" "/krew/store/foo/v1" (Some []), None)
       (trace (install (foo_op (foo_platform (Some []) "foo")) no_opts fresh)).
Proof.
  split; [reflexivity|]. split; [discriminate|]. vm_compute. tauto.
Qed.

(** On the host in memory a path whose removal is reported is gone. *)
Lemma mem_RemoveAll_gone (path : string) (wb wc : world) :
  mem_RemoveAll path wb = (None, wc) ->
  os_IsNotExist (mem_Lstat path wc).2 = true.
Proof.
  unfold mem_RemoveAll. destruct (bool_decide _); [discriminate|].
  intros [= <-]. unfold mem_Lstat, with_fs. cbn [fs].
  assert (filter (fun kv : string * node => negb (within path kv.1) = true) (fs wb) !! path
          = None) as ->; [|reflexivity].
  apply map_lookup_filter_None. right. intros n _. cbn.
  unfold within. now rewrite String.eqb_refl.
Qed.

Lemma install_removes_staging_witness :
  exists (pre : list Event) (wb : world),
    trace (install (foo_op (foo_platform None "foo")) no_opts fresh)
    = pre ++ [(CRemoveAll "/krew/download/foo", (mem_RemoveAll "/krew/download/foo" wb).1)]
    /\ after (install (foo_op (foo_platform None "foo")) no_opts fresh)
       = (mem_RemoveAll "/krew/download/foo" wb).2
    /\ ((mem_RemoveAll "/krew/download/foo" wb).1 = None ->
        os_IsNotExist
          (mem_Lstat "/krew/download/foo"
             (after (install (foo_op (foo_platform None "foo")) no_opts fresh))).2 = true)
    /\ value (@install (@with_RemoveAll mem_OS refused_RemoveAll)
                (@with_RemoveAll_collaborators mem_OS mem_Collaborators refused_RemoveAll)
                (foo_op (foo_platform None "foo")) no_opts fresh)
       = value (install (foo_op (foo_platform None "foo")) no_opts fresh).
Proof.
  pose proof (@install_removes_staging mem_OS mem_Collaborators
                (foo_op (foo_platform None "foo")) no_opts fresh
                (mem_MkdirAll "/krew/download/foo" 493 fresh).2) as Hi.
  cbv zeta in Hi.
  destruct Hi as (pre & wb & Ht & Ha & Hg & Hrm).
  - vm_compute. reflexivity.
  - intros wb wc. apply mem_RemoveAll_gone.
  - exists pre, wb. split; [exact Ht|]. split; [exact Ha|]. split; [exact Hg|].
    exact (proj1 (Hrm refused_RemoveAll)).
Defined.

(** C4 as it was stated fails on a host that refuses to remove the staging
    directory: [os.MkdirAll] makes the directory, [install] returns (here
    with success), its last call is the [os.RemoveAll] that failed, and the
    directory is still there. *)
Lemma staging_survives_refused_removal :
  let op := foo_op (foo_platform None "foo") in
  let r := install op no_opts busy in
  (sys_MkdirAll (downloadStagingDir op) 493 busy).1 = None
  /\ value r = None
  /\ last (trace r)
     = Some (CRemoveAll "/krew/download/foo",
             Some (PathError "unlinkat" "/krew/download/foo" EPERM))
  /\ fs (after r) !! "/krew/download/foo" = Some Dir
  /\ os_IsNotExist (sys_Lstat "/krew/download/foo" (after r)).2 = false.
Proof.
  cbv zeta.
  split; [vm_compute; reflexivity|].
  split; [vm_compute; reflexivity|].
  split; [vm_compute; reflexivity|].
  split; vm_compute; reflexivity.
Qed.

Lemma removeLink_spec_witness :
  (value (removeLink "/krew/bin/kubectl-foo" foreign) <> None
   /\ after (removeLink "/krew/bin/kubectl-foo" foreign) = foreign)
  /\ (value (install (foo_op (foo_platform None "foo")) no_opts foreign) <> None
      /\ fs (after (install (foo_op (foo_platform None "foo")) no_opts foreign))
           !! "/krew/bin/kubectl-foo" = Some (File None)).
Proof.
  destruct (@removeLink_spec mem_OS mem_Collaborators) as (Hremove & _ & Hinstall).
  split.
  - assert (sys_Lstat "/krew/bin/kubectl-foo" foreign = ({| Mode := 420 |}, None)) as Hl
      by (vm_compute; reflexivity).
    pose proof (Hremove _ _ _ _ Hl) as Hr. cbv zeta in Hr.
    destruct Hr as (_ & Hr & _).
    destruct Hr as (Hv & Ha & _); [reflexivity | vm_compute; reflexivity |].
    split; [exact Hv | exact Ha].
  - pose (op := foo_op (foo_platform None "foo")).
    pose (w1 := (mem_MkdirAll "/krew/download/foo" 493 foreign).2).
    pose (w2 := (mem_downloader_get (downloaderOf op no_opts) "file:///tmp/foo.tar.gz"
                   "/krew/download/foo" w1).2).
    pose (w3 := (mem_move_to_install_dir "/krew/download/foo" "/krew/store/foo/v1"
                   (Some [ {| From := "*"; To := "." |} ]) w2).2).
    pose proof (Hinstall op no_opts foreign w1 w2 w3 "/krew/store/foo/v1"
                  "/krew/store/foo/v1/foo" {| Mode := 420 |}) as Hi.
    cbv zeta in Hi.
    destruct Hi as (Hv & Ha & _); try (vm_compute; reflexivity).
    split; [exact Hv|]. fold op. rewrite Ha. vm_compute. reflexivity.
Defined.

Lemma Install_receipt_lookup_witness :
  (value (Install paths foo no_opts installed) = ErrIsAlreadyInstalled
   /\ after (Install paths foo no_opts installed) = installed)
  /\ (value (Install paths foo no_opts unreadable)
      = errors_Wrap (errors_Errorf "failed to decode plugin manifest %q"
                       ["/krew/receipts/foo.yaml"])
          "failed to look up plugin receipt"
      /\ after (Install paths foo no_opts unreadable) = unreadable)
  /\ (exists (ev : error) (rest : list Event),
        trace (Install paths foo no_opts fresh)
        = (CReceiptLoad "/krew/receipts/foo.yaml",
           Some (PathError "open" "/krew/receipts/foo.yaml" ENOENT))
            :: (CGetMatchingPlatform (Platforms (Spec foo)), ev) :: rest).
Proof.
  split; [|split].
  - pose proof (@Install_receipt_lookup mem_OS mem_Collaborators paths foo no_opts installed)
      as Hi.
    cbv zeta in Hi. destruct Hi as (Hfound & _).
    destruct (Hfound foo) as (Hv & _ & Ha & _ & _); [vm_compute; reflexivity|].
    split; [exact Hv | exact Ha].
  - pose proof (@Install_receipt_lookup mem_OS mem_Collaborators paths foo no_opts unreadable)
      as Hu.
    cbv zeta in Hu. destruct Hu as (_ & Hother & _).
    destruct (Hother zeroPlugin
                (Fundamental "failed to decode plugin manifest %q" ["/krew/receipts/foo.yaml"]))
      as (Hv & _ & Ha & _ & _); [vm_compute; reflexivity | reflexivity |].
    split; [exact Hv | exact Ha].
  - pose proof (@Install_receipt_lookup mem_OS mem_Collaborators paths foo no_opts fresh)
      as Hf.
    cbv zeta in Hf. destruct Hf as (_ & _ & Hnone & _).
    apply (Hnone zeroPlugin (PathError "open" "/krew/receipts/foo.yaml" ENOENT));
      [vm_compute; reflexivity | reflexivity].
Defined.

Lemma Uninstall_order_witness :
  value (Uninstall paths "foo" installed) = None
  /\ trace (Uninstall paths "foo" installed)
     = [(CReceiptLoad "/krew/receipts/foo.yaml", None); (CGetenv "KREW_OS", None);
        (CLstat "/krew/bin/kubectl-foo", None); (CRemove "/krew/bin/kubectl-foo", None);
        (CRemoveAll "/krew/store/foo", None); (CRemove "/krew/receipts/foo.yaml", None)]
  /\ fs (after (Uninstall paths "foo" installed)) !! "/krew/receipts/foo.yaml" = None.
Proof.
  assert (receipt_load (PluginInstallReceiptPath paths "foo") installed = (foo, None)) as Hld
    by (vm_compute; reflexivity).
  assert ("foo" <> krewPluginName) as Hname by discriminate.
  pose proof (@Uninstall_order mem_OS mem_Collaborators paths "foo" installed foo Hld) as Hu.
  cbv zeta in Hu. destruct Hu as (_ & Hu).
  destruct (Hu Hname) as (_ & _ & Hok & _ & _). clear Hu. rename Hok into Hu.
  destruct Hu as (Hv & Ha & Ht); [vm_compute; reflexivity | vm_compute; reflexivity |].
  split; [rewrite Hv; vm_compute; reflexivity|].
  split; [rewrite Ht; vm_compute; reflexivity|].
  rewrite Ha. vm_compute. reflexivity.
Defined.

(** ** Where the code departs from the specification *)

(** C1. A manifest whose [bin] leaves the install directory: the path check
    of [install] finds the binary outside, and [install] returns [nil]. No
    symlink is created, but the operation does not fail. *)
Theorem escaping_bin_install_returns_nil :
  let op := foo_op (foo_platform None "../../../etc/foo") in
  let r := install op no_opts fresh in
  fullPath op = "/krew/etc/foo"
  /\ (pathutil_IsSubPath "/krew/store/foo/v1" "/krew/etc/foo").2 = false
  /\ value r = None
  /\ Forall (fun ev : Event => is_symlink_call ev.1 = false) (trace r)
  /\ fs (after r) !! "/krew/bin/kubectl-foo" = None.
Proof.
  cbv zeta.
  split; [vm_compute; reflexivity|].
  split; [vm_compute; reflexivity|].
  split; [vm_compute; reflexivity|].
  split; [|vm_compute; reflexivity].
  vm_compute. repeat (apply Forall_cons_2; [reflexivity|]). apply Forall_nil_2.
Qed.

(** C2. A plugin that offers no platform for the host: no entry matches,
    and [Install] returns [nil]. Nothing is downloaded, moved, linked or
    stored, but the operation does not fail. *)
Theorem unsupported_platform_Install_returns_nil :
  let r := Install paths windows_only no_opts fresh in
  matchPlatform (Platforms (Spec windows_only)) fresh = (zeroPlatform, false, None)
  /\ value r = None
  /\ after r = fresh
  /\ trace r
     = [(CReceiptLoad "/krew/receipts/foo.yaml",
         Some (PathError "open" "/krew/receipts/foo.yaml" ENOENT));
        (CGetMatchingPlatform (Platforms (Spec windows_only)), None)].
Proof.
  cbv zeta.
  split; [vm_compute; reflexivity|].
  split; [vm_compute; reflexivity|].
  split; vm_compute; reflexivity.
Qed.

(** C5. The same manifest as for C1, through [Install]: the path check
    fails, no link is published, and yet [Install] goes on to store the
    receipt and returns [nil]. *)
Theorem receipt_stored_after_failed_path_check :
  let r := Install paths escaping no_opts fresh in
  value r = None
  /\ last (trace r) = Some (CReceiptStore escaping "/krew/receipts/foo.yaml", None)
  /\ Forall (fun ev : Event => is_symlink_call ev.1 = false) (trace r)
  /\ fs (after r) !! "/krew/receipts/foo.yaml" = Some (File (Some escaping))
  /\ fs (after r) !! "/krew/bin/kubectl-foo" = None.
Proof.
  cbv zeta.
  split; [vm_compute; reflexivity|].
  split; [vm_compute; reflexivity|].
  split; [|split; vm_compute; reflexivity].
  vm_compute. repeat (apply Forall_cons_2; [reflexivity|]). apply Forall_nil_2.
Qed.

Example findRepo_examples :
  findRepo "https://github.com/kubernetes-sigs/krew" = "kubernetes-sigs/krew"
  /\ findRepo "https://github.com/ahmetb/kubectx/tree/master#readme" = "ahmetb/kubectx"
  /\ findRepo "https://github.com/a/b#c" = "a/b"
  /\ findRepo "https://github.com/a/github.com/b/c" = "b/c"
  /\ findRepo "https://github.com/a" = ""
  /\ findRepo "https://kudo.dev/" = "kudobuilder/kudo"
  /\ findRepo "https://soluble-ai.github.io/kubetap/" = "soluble-ai/kubetap"
  /\ findRepo "https://example.com/" = "".
Proof. repeat split; vm_compute; reflexivity. Qed.

(** ** Instances of the further properties *)

(** At X1: [foo] is not installed in [fresh]. *)
Lemma Uninstall_touches_installed_only_witness :
  value (Uninstall paths "foo" fresh) = ErrIsNotInstalled
  /\ after (Uninstall paths "foo" fresh) = fresh.
Proof.
  assert (receipt_load (PluginInstallReceiptPath paths "foo") fresh
          = (zeroPlugin, Some (PathError "open" "/krew/receipts/foo.yaml" ENOENT))) as Hld
    by (vm_compute; reflexivity).
  pose proof (@Uninstall_touches_installed_only mem_OS mem_Collaborators paths "foo" fresh)
    as Hu.
  cbv zeta in Hu. destruct Hu as (_ & Ha & _ & Hs).
  { right. rewrite Hld. discriminate. }
  split; [|exact Ha].
  apply Hs; [discriminate | rewrite Hld; reflexivity].
Defined.

(** At X2: [foo] is installed and its link was deleted by hand. *)
Lemma Uninstall_without_link_witness :
  value (Uninstall paths "foo" unlinked) = None
  /\ trace (Uninstall paths "foo" unlinked)
     = [(CReceiptLoad "/krew/receipts/foo.yaml", None); (CGetenv "KREW_OS", None);
        (CLstat "/krew/bin/kubectl-foo",
         Some (PathError "lstat" "/krew/bin/kubectl-foo" ENOENT));
        (CRemoveAll "/krew/store/foo", None); (CRemove "/krew/receipts/foo.yaml", None)].
Proof.
  pose proof (@Uninstall_without_link mem_OS mem_Collaborators paths "foo" unlinked foo
                {| Mode := 0 |} (Some (PathError "lstat" "/krew/bin/kubectl-foo" ENOENT)))
    as Hu.
  cbv zeta in Hu.
  destruct Hu as (Ht & _ & Hv);
    [discriminate | vm_compute; reflexivity | vm_compute; reflexivity | reflexivity |].
  split.
  - apply Hv. split; vm_compute; reflexivity.
  - rewrite Ht. vm_compute. reflexivity.
Defined.

(** At X3: a regular file is where the link of the installed [foo]
    belongs. *)
Lemma Uninstall_foreign_link_witness :
  value (Uninstall paths "foo" blocked) <> None
  /\ after (Uninstall paths "foo" blocked) = blocked
  /\ trace (Uninstall paths "foo" blocked)
     = [(CReceiptLoad "/krew/receipts/foo.yaml", None); (CGetenv "KREW_OS", None);
        (CLstat "/krew/bin/kubectl-foo", None)].
Proof.
  pose proof (@Uninstall_foreign_link mem_OS mem_Collaborators paths "foo" blocked foo
                {| Mode := 420 |}) as Hu.
  cbv zeta in Hu.
  destruct Hu as (Hv & Ha & Ht);
    [discriminate | vm_compute; reflexivity | vm_compute; reflexivity | reflexivity |].
  split; [exact Hv|]. split; [exact Ha|].
  rewrite Ht. vm_compute. reflexivity.
Defined.

(** At X4: the link of the installed [foo] is replaced by one to a binary
    that is not in the install directory. *)
Lemma createOrUpdateLink_missing_binary_witness :
  fs installed !! "/krew/bin/kubectl-foo" = Some (Link "/krew/store/foo/v1/foo")
  /\ value (createOrUpdateLink "/krew/bin" "/krew/store/foo/v1/bar" "foo" installed) <> None
  /\ after (createOrUpdateLink "/krew/bin" "/krew/store/foo/v1/bar" "foo" installed) = unlinked
  /\ fs unlinked !! "/krew/bin/kubectl-foo" = None.
Proof.
  pose proof (@createOrUpdateLink_missing_binary mem_OS mem_Collaborators
                "/krew/bin" "/krew/store/foo/v1/bar" "foo" installed unlinked
                {| Mode := Z.lor os_ModeSymlink 511 |} {| Mode := 0 |}
                (Some (PathError "stat" "/krew/store/foo/v1/bar" ENOENT))) as Hc.
  cbv zeta in Hc.
  destruct Hc as (Hv & Ha & _);
    [vm_compute; reflexivity | vm_compute; discriminate | vm_compute; reflexivity
    | vm_compute; reflexivity | reflexivity |].
  split; [vm_compute; reflexivity|]. split; [exact Hv|]. split; [exact Ha|].
  vm_compute. reflexivity.
Defined.

(** At X5: on the strict host the binary path runs through the regular
    file [/krew/store/foo/v1/foo]; the link is made all the same and points
    at nothing. *)
Lemma createOrUpdateLink_stat_error_ignored_witness :
  value (@createOrUpdateLink strict_OS "/krew/bin" "/krew/store/foo/v1/foo/bin" "foo" installed)
  = None
  /\ fs (after (@createOrUpdateLink strict_OS "/krew/bin" "/krew/store/foo/v1/foo/bin" "foo"
                  installed))
       !! "/krew/bin/kubectl-foo"
     = Some (Link "/krew/store/foo/v1/foo/bin").
Proof.
  pose proof (@createOrUpdateLink_stat_error_ignored strict_OS strict_Collaborators
                "/krew/bin" "/krew/store/foo/v1/foo/bin" "foo" installed
                {| Mode := 0 |} (PathError "stat" "/krew/store/foo/v1/foo/bin" ENOTDIR)) as Hc.
  cbv zeta in Hc.
  destruct Hc as (_ & Ha & Hv);
    [vm_compute; reflexivity | vm_compute; reflexivity | reflexivity |].
  split.
  - apply Hv. vm_compute. reflexivity.
  - rewrite Ha. vm_compute. reflexivity.
Defined.

(** At X6: the link that the install of [foo] in [fresh] creates. *)
Lemma install_links_checked_binary_witness :
  "/krew/store/foo/v1/foo"
  = filepath_Join (installDir (foo_op (foo_platform None "foo")))
      (filepath_FromSlash (Bin (platform (foo_op (foo_platform None "foo")))))
  /\ exists (w3 : World) (subPathAbs pathAbs : string),
       sys_Abs (installDir (foo_op (foo_platform None "foo"))) w3 = (subPathAbs, None)
       /\ sys_Abs "/krew/store/foo/v1/foo" w3 = (pathAbs, None)
       /\ (pathutil_IsSubPath subPathAbs pathAbs).2 = true.
Proof.
  apply (@install_links_checked_binary mem_OS mem_Collaborators
           (foo_op (foo_platform None "foo")) no_opts fresh
           "/krew/store/foo/v1/foo" "/krew/bin/kubectl-foo" None).
  assert (trace (install (foo_op (foo_platform None "foo")) no_opts fresh)
          = [(CMkdirAll "/krew/download/foo" 493, None);
             (CDownloaderGet {| verifier := "d1ce"; fetcher := HTTPFetcher |}
                "file:///tmp/foo.tar.gz" "/krew/download/foo", None);
             (CMoveToInstallDir "/krew/download/foo" "/krew/store/foo/v1"
                (Some [{| From := "*"; To := "." |}]), None);
             (CAbs "/krew/store/foo/v1", None);
             (CAbs "/krew/store/foo/v1/foo", None); (CGetenv "KREW_OS", None);
             (CLstat "/krew/bin/kubectl-foo",
              Some (PathError "lstat" "/krew/bin/kubectl-foo" ENOENT));
             (CStat "/krew/store/foo/v1/foo", None);
             (CSymlink "/krew/store/foo/v1/foo" "/krew/bin/kubectl-foo", None);
             (CRemoveAll "/krew/download/foo", None)]) as Ht
    by (vm_compute; reflexivity).
  rewrite Ht. do 8 right. left. reflexivity.
Defined.

(** At X8: on [busy] the staging directory cannot be removed and nothing
    is at the link path, and [install] returns [nil] with the link made;
    for the binary of [escaping] it returns [nil] with no link. *)
Lemma install_tolerated_failures_witness :
  In (CSymlink "/krew/store/foo/v1/foo" "/krew/bin/kubectl-foo", None)
    (trace (install (foo_op (foo_platform None "foo")) no_opts busy))
  /\ value (install (foo_op (foo_platform None "../../../etc/foo")) no_opts fresh) = None
  /\ trace (install (foo_op (foo_platform None "../../../etc/foo")) no_opts fresh)
     = [(CMkdirAll "/krew/download/foo" 493, None);
        (CDownloaderGet {| verifier := "d1ce"; fetcher := HTTPFetcher |}
           "file:///tmp/foo.tar.gz" "/krew/download/foo", None);
        (CMoveToInstallDir "/krew/download/foo" "/krew/store/foo/v1"
           (Some [{| From := "*"; To := "." |}]), None);
        (CAbs "/krew/store/foo/v1", None);
        (CAbs "/krew/etc/foo", None);
        (CRemoveAll "/krew/download/foo", None)].
Proof.
  split.
  - pose proof (@install_tolerated_failures mem_OS mem_Collaborators
                  (foo_op (foo_platform None "foo")) no_opts busy) as Hi.
    cbv zeta in Hi. destruct Hi as (_ & Hi).
    destruct Hi as (_ & Hin & _); [vm_compute; reflexivity|].
    apply Hin. vm_compute. reflexivity.
  - pose proof (@install_tolerated_failures mem_OS mem_Collaborators
                  (foo_op (foo_platform None "../../../etc/foo")) no_opts fresh) as Hi.
    cbv zeta in Hi. destruct Hi as (Hnil & Hi).
    assert (value (install (foo_op (foo_platform None "../../../etc/foo")) no_opts fresh)
            = None) as Hv.
    { apply Hnil. split; [vm_compute; reflexivity|]. split; [vm_compute; reflexivity|].
      split; [vm_compute; reflexivity|]. split; [vm_compute; reflexivity|].
      split; vm_compute; reflexivity. }
    split; [exact Hv|].
    destruct (Hi Hv) as (_ & _ & Hout).
    destruct Hout as (Ht & _); [vm_compute; reflexivity|].
    rewrite Ht. vm_compute. reflexivity.
Defined.

(** At X9: the version of [traversing] puts the install directory where
    the receipt belongs; the link stays although [Install] failed. *)
Lemma Install_store_failure_witness :
  value (Install paths traversing no_opts fresh)
  = Some (WithMessage (PathError "open" "/krew/receipts/foo.yaml" EIO)
            "installation receipt could not be stored, uninstall may fail" [])
  /\ fs (after (Install paths traversing no_opts fresh)) !! "/krew/bin/kubectl-foo"
     = Some (Link "/krew/receipts/foo.yaml/foo").
Proof.
  pose proof (@Install_store_failure mem_OS mem_Collaborators paths traversing no_opts fresh
                (after (install (operationOf paths traversing (foo_platform None "foo"))
                          no_opts fresh))
                zeroPlugin
                (PathError "open" "/krew/receipts/foo.yaml" ENOENT)
                (PathError "open" "/krew/receipts/foo.yaml" EIO)
                (foo_platform None "foo")) as Hi.
  cbv zeta in Hi.
  destruct Hi as (Hv & Ha & _);
    [vm_compute; reflexivity | reflexivity | vm_compute; reflexivity
    | vm_compute; reflexivity | vm_compute; reflexivity |].
  split; [exact Hv|].
  rewrite Ha. vm_compute. reflexivity.
Defined.

(** At X10: [foo] installed from a local archive. *)
Lemma Install_download_verified_witness :
  exists c : Platform,
    matchPlatform (Platforms (Spec foo)) fresh = (c, true, None)
    /\ verifier {| verifier := "d1ce"; fetcher := FileFetcher "file:///tmp/foo.tar.gz" |}
       = Sha256 c
    /\ "file:///tmp/foo.tar.gz" = URI c
    /\ "/krew/download/foo" = filepath_Join (DownloadPath paths) (Name foo)
    /\ fetcher {| verifier := "d1ce"; fetcher := FileFetcher "file:///tmp/foo.tar.gz" |}
       = (if String.eqb (ArchiveFileOverride
                           {| ArchiveFileOverride := "file:///tmp/foo.tar.gz" |}) ""
          then HTTPFetcher
          else FileFetcher (ArchiveFileOverride
                              {| ArchiveFileOverride := "file:///tmp/foo.tar.gz" |})).
Proof.
  apply (@Install_download_verified mem_OS mem_Collaborators paths foo
           {| ArchiveFileOverride := "file:///tmp/foo.tar.gz" |} fresh
           {| verifier := "d1ce"; fetcher := FileFetcher "file:///tmp/foo.tar.gz" |}
           "file:///tmp/foo.tar.gz" "/krew/download/foo" None).
  assert (nth_error (trace (Install paths foo
                              {| ArchiveFileOverride := "file:///tmp/foo.tar.gz" |} fresh)) 3
          = Some (CDownloaderGet
                    {| verifier := "d1ce"; fetcher := FileFetcher "file:///tmp/foo.tar.gz" |}
                    "file:///tmp/foo.tar.gz" "/krew/download/foo", None)) as Hn
    by (vm_compute; reflexivity).
  exact (nth_error_In _ _ Hn).
Defined.

(** At X11. *)
Lemma pluginNameToBin_injective_witness :
  pluginNameToBin "view-secret" false = "kubectl-view_secret" /\ "view-secret" = "view-secret".
Proof.
  split; [reflexivity|].
  apply (pluginNameToBin_injective "view-secret" "view-secret" false); reflexivity.
Defined.

(** At X16. *)
Lemma findRepo_github_witness :
  findRepo ("https://" +:+ "github.com/" +:+ "kubernetes-sigs" +:+ "/" +:+ "krew"
              +:+ "/tree/master")
  = "kubernetes-sigs" +:+ "/" +:+ "krew".
Proof.
  apply (findRepo_github "https://" "kubernetes-sigs" "krew" "/tree/master");
    first [reflexivity | discriminate | left; reflexivity].
Defined.

(** At X17: the install of [foo] in [fresh]. *)
Lemma Install_store_is_last_witness :
  exists c : Platform, value (install (operationOf paths foo c) no_opts fresh) = None.
Proof.
  assert (trace (Install paths foo no_opts fresh)
          = removelast (trace (Install paths foo no_opts fresh))
              ++ (CReceiptStore foo "/krew/receipts/foo.yaml", None) :: []) as Ht
    by (vm_compute; reflexivity).
  destruct (@Install_store_is_last mem_OS mem_Collaborators _ _ _ _ _ _ _ _ _ Ht)
    as (_ & _ & _ & Hc).
  exact Hc.
Defined.

(** At X18: a homepage of the table. *)
Lemma findRepo_elsewhere_witness :
  findRepo "https://kubevirt.io" = "kubevirt/kubectl-virt-plugin".
Proof.
  rewrite (findRepo_elsewhere "https://kubevirt.io") by reflexivity.
  vm_compute. reflexivity.
Defined.
